(** * SMPTE timecode server: a shallow embedding of [smpte-tc-server.py]

    The development follows the layout of the Python module:
    - [Py]: the pieces of the Python runtime the server relies on
      ([str.split], [int(str)], the [02d] format, [int(float)]);
    - [SMPTETimecode]: the timecode value class;
    - the registry ([SMPTETimecodeServer]) with its sessions, its client
      connections and the asyncio tasks that drive the clocks, written in a
      small state-and-exception monad;
    - the theorems, one block per property of the specification.

    Python integers are unbounded and are modelled by [Z].  Text is modelled
    by [string] read as a sequence of ASCII characters; the theorems about
    parsing arbitrary text say so with the hypothesis [Py.short_ascii], which
    also keeps the text within the interpreter's limit on the length of a
    number ([sys.get_int_max_str_digits()], 4300 by default).  A [float] is
    only ever produced from one of the framerate literals and only consumed
    by [int(...)]; it is modelled by the exact rational of its literal.

    A handler is modelled as one function from the registry before the call
    to the registry after it: it runs to its end before anything else does.
    In the program a handler can be suspended at [await self.task] in
    [TimecodeSession.stop_timecode], after the flag is cleared and the task
    cancelled and before the handle is dropped; [stop_begins] and
    [stop_resumes] are the two halves.  The theorems on [start_timecode],
    [reset_timecode] and the parsers are stated for every registry, the one
    of that suspended state included, and not only for [reachable] ones. *)

From Stdlib Require Import ZArith QArith Qround String Ascii List Lia.
From Stdlib Require Import DecimalString DecimalPos DecimalN.
From stdpp Require Import gmap strings list fin_maps.

Local Open Scope string_scope.
Local Open Scope Z_scope.

(** ** The Python runtime *)

Module Py.

(** [s.split(sep)] for a one-character separator: every occurrence of the
    separator ends a field, so the result has one more field than there
    are separators and is never empty. *)
Fixpoint split (sep : ascii) (s : string) : list string :=
  match s with
  | EmptyString => [EmptyString]
  | String c s' =>
      if Ascii.eqb c sep then EmptyString :: split sep s'
      else match split sep s' with
           | p :: ps => String c p :: ps
           | [] => [String c EmptyString]
           end
  end.

(** [sep.join(parts)]. *)
Fixpoint join (sep : ascii) (parts : list string) : string :=
  match parts with
  | [] => EmptyString
  | [p] => p
  | p :: ps => p +:+ String sep (join sep ps)
  end.

(** Characters [int] strips at both ends of ASCII text: TAB, LF, VT, FF, CR
    and the space.  (The separators FS, GS, RS and US, which [str.strip]
    removes, are not among them: [int] of such a field raises.) *)
Definition is_space (c : ascii) : bool :=
  let n := nat_of_ascii c in
  ((9 <=? n)%nat && (n <=? 13)%nat) || (n =? 32)%nat.

Definition digit_of (c : ascii) : option Z :=
  let n := nat_of_ascii c in
  if ((48 <=? n)%nat && (n <=? 57)%nat) then Some (Z.of_nat n - 48) else None.

Fixpoint lstrip (s : string) : string :=
  match s with
  | EmptyString => EmptyString
  | String c s' => if is_space c then lstrip s' else s
  end.

Fixpoint string_rev (s : string) : string :=
  match s with
  | EmptyString => EmptyString
  | String c s' => string_rev s' +:+ String c EmptyString
  end.

Definition strip (s : string) : string :=
  string_rev (lstrip (string_rev (lstrip s))).

(** [c in s]. *)
Fixpoint contains (c : ascii) (s : string) : bool :=
  match s with
  | EmptyString => false
  | String c' s' => Ascii.eqb c' c || contains c s'
  end.

Fixpoint all_chars (P : ascii → bool) (s : string) : bool :=
  match s with
  | EmptyString => true
  | String c s' => P c && all_chars P s'
  end.

(** The digit scanner of [int]: decimal digits, with single underscores
    allowed between two digits.  [prev] tells whether the previous
    character was a digit; an underscore is legal only then, and the
    literal may not end on one (nor be empty). *)
Fixpoint scan_digits (acc : Z) (prev : bool) (s : string) : option Z :=
  match s with
  | EmptyString => if prev then Some acc else None
  | String c s' =>
      match digit_of c with
      | Some d => scan_digits (10 * acc + d) true s'
      | None =>
          if Ascii.eqb c "_" && prev then scan_digits acc false s' else None
      end
  end.

(** [int(s)] for a [str] in base 10: [None] stands for [ValueError].
    Blanks are stripped at both ends, one sign may lead, the rest goes to
    the digit scanner.  This is what [int] does on ASCII text whose digit
    count stays within the interpreter's limit on integer string conversion
    ([int_max_str_digits]); see [short_ascii] below. *)
Definition int_of_str (s : string) : option Z :=
  match strip s with
  | EmptyString => None
  | String c body =>
      if Ascii.eqb c "+" then scan_digits 0 false body
      else if Ascii.eqb c "-" then Z.opp <$> scan_digits 0 false body
      else scan_digits 0 false (String c body)
  end.

(** The text on which [int_of_str] is [int]: every character is ASCII, and
    the text is no longer than 4300 characters, the default of
    [sys.get_int_max_str_digits()], so that no field can exceed the limit
    past which [int] raises 'Exceeds the limit ... for integer string
    conversion' whatever the digits.  On text outside ASCII [int] also takes
    the other Unicode decimal digits and blanks. *)
Definition is_ascii (s : string) : bool :=
  all_chars (λ c, (nat_of_ascii c <? 128)%nat) s.

Definition int_max_str_digits : nat := 4300.

Definition short_ascii (s : string) : Prop :=
  is_ascii s = true ∧ (String.length s ≤ int_max_str_digits)%nat.

(** [repr(s)] for a [str].  The text is put between single quotes, or
    between double quotes when it holds a single quote and no double quote.
    The backslash and the quote in use are escaped with a backslash; TAB, LF
    and CR are written [\t], [\n], [\r]; every other character that is
    not printable is written [\xNN] with two lower-case hexadecimal digits.
    The printable characters below 256 are those from the space to the
    tilde and, outside ASCII, those from 161 on but for the soft hyphen
    173. *)
Definition squote : ascii := ascii_of_nat 39.
Definition dquote : ascii := ascii_of_nat 34.
Definition backslash : ascii := ascii_of_nat 92.

Definition hex_digit (n : nat) : ascii :=
  if (n <? 10)%nat then ascii_of_nat (48 + n)%nat else ascii_of_nat (87 + n)%nat.

Definition is_printable (c : ascii) : bool :=
  let n := nat_of_ascii c in
  ((32 <=? n)%nat && (n <=? 126)%nat) || ((161 <=? n)%nat && negb (n =? 173)%nat).

Definition repr_char (quote c : ascii) : string :=
  let n := nat_of_ascii c in
  if Ascii.eqb c quote || Ascii.eqb c backslash then String backslash (String c EmptyString)
  else if (n =? 9)%nat then String backslash "t"
  else if (n =? 10)%nat then String backslash "n"
  else if (n =? 13)%nat then String backslash "r"
  else if is_printable c then String c EmptyString
  else String backslash
         (String "x" (String (hex_digit (n / 16)%nat)
            (String (hex_digit (n mod 16)%nat) EmptyString))).

Fixpoint repr_body (quote : ascii) (s : string) : string :=
  match s with
  | EmptyString => String quote EmptyString
  | String c s' => repr_char quote c +:+ repr_body quote s'
  end.

Definition repr (s : string) : string :=
  let quote := if contains squote s && negb (contains dquote s) then dquote else squote in
  String quote (repr_body quote s).

(** The first [n] characters of [s]: the precision of a [%.200R] format. *)
Fixpoint truncate (n : nat) (s : string) : string :=
  match n, s with
  | S n', String c s' => String c (truncate n' s')
  | _, _ => EmptyString
  end.

(** The decimal digits of a natural number, most significant first. *)
Definition digits (n : N) : string := NilEmpty.string_of_uint (N.to_uint n).

(** [format(x, "02d")]: sign, digits, zero-padded after the sign to a total
    width of two characters. *)
Definition format_02d (x : Z) : string :=
  let body := digits (Z.abs_N x) in
  if x <? 0 then String "-" body
  else if (String.length body <? 2)%nat then String "0" body
  else body.

(** [float(s)] on a plain decimal literal [digits] or [digits.digits], the
    only shape the server ever passes (a key of [SUPPORTED_FRAMERATES]);
    signs, exponents, [inf] and [nan] are left out and answer [None] here.
    The value is the exact rational of the literal: the double Python
    computes for each of the seven keys has the same integer part. *)
Fixpoint scan_fraction (num : Z) (den : positive) (s : string) : option Q :=
  match s with
  | EmptyString => Some (Qmake num den)
  | String c s' =>
      match digit_of c with
      | Some d => scan_fraction (10 * num + d) (10 * den) s'
      | None => None
      end
  end.

Fixpoint scan_float (num : Z) (seen : bool) (s : string) : option Q :=
  match s with
  | EmptyString => if seen then Some (Qmake num 1) else None
  | String c s' =>
      match digit_of c with
      | Some d => scan_float (10 * num + d) true s'
      | None => if Ascii.eqb c "." && seen then scan_fraction num 1 s' else None
      end
  end.

Definition float_of_str (s : string) : option Q := scan_float 0 false s.

(** [int(x)] for a [float]: truncation towards zero. *)
Definition int_of_float (x : Q) : Z := Z.quot (Qnum x) (Z.pos (Qden x)).

End Py.

(** ** [class SMPTETimecode] *)

Record SMPTETimecode : Type := Timecode {
  hours : Z;
  minutes : Z;
  seconds : Z;
  frames : Z
}.

(** The exceptions the modelled code can raise. *)
Inductive exn : Type :=
| ValueError (msg : string)
| KeyError (key : string)
| ConnectionError.

Inductive res (A : Type) : Type :=
| Ok (a : A)
| Raise (e : exn).
Arguments Ok {A} a.
Arguments Raise {A} e.

Module TC.

(** [int(parts[i])]: the message of the [ValueError] is built with the
    format [%.200R], the [repr] of the field cut after 200 characters. *)
Definition int_field (s : string) : res Z :=
  match Py.int_of_str s with
  | Some z => Ok z
  | None =>
      Raise (ValueError ("invalid literal for int() with base 10: "
                         +:+ Py.truncate 200 (Py.repr s)))
  end.

(** [SMPTETimecode.from_string]: the keyword arguments are evaluated left
    to right, so the first bad field is the one reported. *)
Definition from_string (timecode_str : string) : res SMPTETimecode :=
  let parts := Py.split ":" timecode_str in
  if negb (length parts =? 4)%nat then
    Raise (ValueError "Invalid timecode format. Use HH:MM:SS:FF")
  else
    match parts with
    | [p0; p1; p2; p3] =>
        match int_field p0 with
        | Raise e => Raise e
        | Ok h =>
        match int_field p1 with
        | Raise e => Raise e
        | Ok m =>
        match int_field p2 with
        | Raise e => Raise e
        | Ok s =>
        match int_field p3 with
        | Raise e => Raise e
        | Ok f => Ok (Timecode h m s f)
        end end end end
    | _ => Raise (ValueError "Invalid timecode format. Use HH:MM:SS:FF")
    end.

(** [SMPTETimecode.to_string]. *)
Definition to_string (tc : SMPTETimecode) : string :=
  Py.join ":" [Py.format_02d (hours tc); Py.format_02d (minutes tc);
               Py.format_02d (seconds tc); Py.format_02d (frames tc)].

(** [SMPTETimecode.increment]: the in-place update, returned as the new
    value of the object. *)
Definition increment (tc : SMPTETimecode) (max_frames : Z) : SMPTETimecode :=
  let f := frames tc + 1 in
  if f >=? max_frames then
    let s := seconds tc + 1 in
    if s >=? 60 then
      let m := minutes tc + 1 in
      if m >=? 60 then
        let h := hours tc + 1 in
        if h >=? 24 then Timecode 0 0 0 0
        else Timecode h 0 0 0
      else Timecode (hours tc) m 0 0
    else Timecode (hours tc) (minutes tc) s 0
  else Timecode (hours tc) (minutes tc) (seconds tc) f.

End TC.

(** ** [class TimecodeSession] *)

(** The asyncio event loop, as far as the server uses it: the tasks created
    by [asyncio.create_task] that have not finished or been cancelled, each
    with the id of the session object whose [_timecode_loop] it runs, and the
    next free task handle. *)
Record event_loop : Type := EventLoop {
  tasks : gmap nat string;
  next_task : nat
}.

Module Session.

(** [interval] is derived from [framerate_float] and only feeds
    [asyncio.sleep]; [created_at] is a wall-clock stamp; [server_ref] is
    always the one server.  The three are not represented. *)
Record t : Type := mk {
  id : string;
  framerate : string;
  framerate_float : Q;
  timecode : SMPTETimecode;
  running : bool;
  clients : gset string;
  created_by : string;
  task : option nat
}.

Definition with_timecode (tc : SMPTETimecode) (s : t) : t :=
  mk (id s) (framerate s) (framerate_float s) tc (running s) (clients s)
     (created_by s) (task s).
Definition with_running (b : bool) (s : t) : t :=
  mk (id s) (framerate s) (framerate_float s) (timecode s) b (clients s)
     (created_by s) (task s).
Definition with_clients (cs : gset string) (s : t) : t :=
  mk (id s) (framerate s) (framerate_float s) (timecode s) (running s) cs
     (created_by s) (task s).
Definition with_task (h : option nat) (s : t) : t :=
  mk (id s) (framerate s) (framerate_float s) (timecode s) (running s)
     (clients s) (created_by s) h.

(** [TimecodeSession.__init__]; [float(framerate)] may raise. *)
Definition init (session_id framerate : string) (initial_timecode : SMPTETimecode)
    (created_by : string) : res t :=
  match Py.float_of_str framerate with
  | None => Raise (ValueError ("could not convert string to float: '" +:+ framerate +:+ "'"))
  | Some x =>
      Ok (mk session_id framerate x initial_timecode false {[created_by]}
             created_by None)
  end.

Definition get_max_frames (s : t) : Z := Py.int_of_float (framerate_float s).

(** [TimecodeSession.start_timecode]: refuses when the flag or the task is
    already set, otherwise sets the flag and spawns the loop task. *)
Definition start_timecode (s : t) (L : event_loop) : bool * t * event_loop :=
  if running s || bool_decide (is_Some (task s)) then (false, s, L)
  else
    let h := next_task L in
    (true, with_task (Some h) (with_running true s),
     EventLoop (<[h := id s]> (tasks L)) (S h)).

(** [TimecodeSession.stop_timecode]: cancels the task and waits for it. *)
Definition stop_timecode (s : t) (L : event_loop) : bool * t * event_loop :=
  match task s with
  | Some h =>
      if negb (running s) then (false, s, L)
      else (true, with_task None (with_running false s),
            EventLoop (delete h (tasks L)) (next_task L))
  | None => (false, s, L)
  end.

Definition add_client (client_id : string) (s : t) : t :=
  with_clients ({[client_id]} ∪ clients s) s.

Definition remove_client (client_id : string) (s : t) : t :=
  with_clients (clients s ∖ {[client_id]}) s.

Definition is_empty (s : t) : bool := (size (clients s) =? 0)%nat.

End Session.

(** ** [class ClientConnection] *)

(** The [asyncio.StreamWriter] of a connection: whether its transport is
    closing, and whether a write on it raises (a reset or broken pipe). *)
Module Writer.
Record t : Type := mk { closing : bool; faulty : bool }.
Definition close (w : t) : t := mk true (faulty w).
End Writer.

Module Client.
(** [address] is only logged and is not represented. *)
Record t : Type := mk {
  id : string;
  writer : Writer.t;
  session_id : option string;
  connected : bool
}.
Definition init (client_id : string) (w : Writer.t) : t := mk client_id w None true.
Definition with_session_id (sid : option string) (c : t) : t :=
  mk (id c) (writer c) sid (connected c).
Definition with_connected (b : bool) (c : t) : t :=
  mk (id c) (writer c) (session_id c) b.
Definition with_writer (w : Writer.t) (c : t) : t :=
  mk (id c) w (session_id c) (connected c).
End Client.

(** ** Messages *)

(** Server-to-client messages, one constructor per [type] tag. *)
Inductive message : Type :=
| welcome (text : string) (supported_framerates : list string)
| error (text : string)
| session_created (session_id framerate initial_timecode : string)
| session_joined (session_id framerate current_timecode : string) (running : bool)
| timecode_update (timecode : string)
| timecode_started (timecode : string)
| timecode_stopped (timecode : string)
| timecode_reset (timecode : string).

(** A decoded client message: a JSON object whose fields are strings. *)
Abbreviation request := (gmap string string).

(** ** [class SMPTETimecodeServer] *)

(** The registry.  [wire] records, oldest first, every message that was
    written to a client's transport without error. *)
Record server : Type := Server {
  sessions : gmap string Session.t;
  clients : gmap string Client.t;
  loop : event_loop;
  wire : list (string * message)
}.

Definition SUPPORTED_FRAMERATES : list (string * Q) :=
  [("23.976", 23976 # 1000); ("24", 24 # 1); ("29.97", 2997 # 100);
   ("30", 30 # 1); ("50", 50 # 1); ("59.94", 5994 # 100); ("60", 60 # 1)].

Definition supported (framerate : string) : bool :=
  existsb (λ kv, String.eqb (fst kv) framerate) SUPPORTED_FRAMERATES.

Definition initial_server : server := Server ∅ ∅ (EventLoop ∅ 0) [].

(** *** The monad of the handlers: state and exceptions *)

Definition M (A : Type) : Type := server → res A * server.

Definition ret {A} (a : A) : M A := λ σ, (Ok a, σ).
Definition raise {A} (e : exn) : M A := λ σ, (Raise e, σ).
Definition bind {A B} (m : M A) (k : A → M B) : M B :=
  λ σ, match m σ with
       | (Ok a, σ') => k a σ'
       | (Raise e, σ') => (Raise e, σ')
       end.
Definition get : M server := λ σ, (Ok σ, σ).
Definition modify (f : server → server) : M unit := λ σ, (Ok tt, f σ).

(** [try: m except Exception: h] *)
Definition try_except {A} (m : M A) (h : exn → M A) : M A :=
  λ σ, match m σ with
       | (Ok a, σ') => (Ok a, σ')
       | (Raise e, σ') => h e σ'
       end.

#[global] Instance M_ret : MRet M := @ret.
#[global] Instance M_bind : MBind M := λ A B k m, bind m k.

Definition exec {A} (m : M A) (σ : server) : server := snd (m σ).
Definition outcome {A} (m : M A) (σ : server) : res A := fst (m σ).

(** [for x in xs: body(x)] *)
Fixpoint for_each {A} (xs : list A) (body : A → M unit) : M unit :=
  match xs with
  | [] => ret tt
  | x :: xs' => body x ;; for_each xs' body
  end.

Definition set_sessions (f : gmap string Session.t → gmap string Session.t) (σ : server) : server :=
  Server (f (sessions σ)) (clients σ) (loop σ) (wire σ).
Definition set_clients (f : gmap string Client.t → gmap string Client.t) (σ : server) : server :=
  Server (sessions σ) (f (clients σ)) (loop σ) (wire σ).
Definition set_loop (L : event_loop) (σ : server) : server :=
  Server (sessions σ) (clients σ) L (wire σ).
Definition push_wire (client_id : string) (msg : message) (σ : server) : server :=
  Server (sessions σ) (clients σ) (loop σ) (wire σ ++ [(client_id, msg)]).

(** Python truthiness of an [Optional[str]]: [None] and the empty string
    are false. *)
Definition truthy (o : option string) : bool :=
  match o with
  | Some s => negb (String.eqb s "")
  | None => false
  end.

(** [del d[k]] on the two dictionaries. *)
Definition del_session (k : string) : M unit :=
  σ ← get;
  match sessions σ !! k with
  | Some _ => modify (set_sessions (delete k))
  | None => raise (KeyError k)
  end.

Definition del_client (k : string) : M unit :=
  σ ← get;
  match clients σ !! k with
  | Some _ => modify (set_clients (delete k))
  | None => raise (KeyError k)
  end.

(** A method call [session.meth()] on the session object stored under [k],
    for the two methods that also touch the event loop. *)
Definition call_session (k : string)
    (meth : Session.t → event_loop → bool * Session.t * event_loop) : M bool :=
  σ ← get;
  match sessions σ !! k with
  | Some s =>
      let '(r, s', L') := meth s (loop σ) in
      modify (λ σ, set_loop L' (set_sessions (<[k := s']>) σ)) ;;
      ret r
  | None => raise (KeyError k)
  end.

Definition lift {A} (r : res A) : M A := λ σ, (r, σ).

(** The guard [client = self.clients.get(client_id);
    if not client or not client.session_id] shared by the handlers: the
    session id the client currently points to, when the guard lets it
    through. *)
Definition current_session (σ : server) (client_id : string) : option string :=
  match clients σ !! client_id with
  | Some client =>
      if truthy (Client.session_id client) then Client.session_id client else None
  | None => None
  end.

(** [SMPTETimecodeServer.leave_session] *)
Definition leave_session (client_id : string) (data : request) : M unit :=
  σ ← get;
  match current_session σ client_id with
  | None => ret tt
  | Some sid =>
      match sessions σ !! sid with
      | Some session =>
          let session' := Session.remove_client client_id session in
          modify (set_sessions (<[sid := session']>)) ;;
          if Session.is_empty session' then
            call_session sid Session.stop_timecode ;;
            del_session sid
          else ret tt
      | None => ret tt
      end ;;
      modify (set_clients (alter (Client.with_session_id None) client_id))
  end.

(** [SMPTETimecodeServer.handle_client_disconnect] *)
Definition handle_client_disconnect (client_id : string) : M unit :=
  leave_session client_id ∅ ;;
  σ ← get;
  match clients σ !! client_id with
  | Some client =>
      let client := Client.with_connected false client in
      let client :=
        if negb (Writer.closing (Client.writer client))
        then Client.with_writer (Writer.close (Client.writer client)) client
        else client in
      modify (set_clients (<[client_id := client]>)) ;;
      del_client client_id
  | None => ret tt
  end.

(** [writer.write(data); await writer.drain()] on a client's transport. *)
Definition transport_write (client_id : string) (client : Client.t) (msg : message) : M unit :=
  if Writer.faulty (Client.writer client) then raise ConnectionError
  else modify (push_wire client_id msg).

(** [SMPTETimecodeServer.send_to_client] *)
Definition send_to_client (client_id : string) (msg : message) : M unit :=
  σ ← get;
  match clients σ !! client_id with
  | Some client =>
      if Client.connected client && negb (Writer.closing (Client.writer client)) then
        try_except (transport_write client_id client msg)
                   (λ _, handle_client_disconnect client_id)
      else ret tt
  | None => ret tt
  end.

(** [SMPTETimecodeServer.broadcast_to_session]: the loop runs over
    [list(session.clients)], a copy made before the first send. *)
Definition broadcast_to_session (session_id : string) (msg : message) : M unit :=
  σ ← get;
  match sessions σ !! session_id with
  | None => ret tt
  | Some session =>
      for_each (elements (Session.clients session))
               (λ client_id, send_to_client client_id msg)
  end.

(** [if client_id in self.clients: self.clients[client_id].session_id = sid] *)
Definition set_client_session (client_id sid : string) : M unit :=
  σ ← get;
  match clients σ !! client_id with
  | Some client =>
      modify (set_clients (<[client_id := Client.with_session_id (Some sid) client]>))
  | None => ret tt
  end.

(** [SMPTETimecodeServer.create_session]; [uuid4] is the string that
    [str(uuid.uuid4())] returns in this call. *)
Definition create_session (uuid4 : string) (client_id : string) (data : request) : M unit :=
  let framerate := data !! "framerate" in
  let initial_timecode_str := default "00:00:00:00" (data !! "initial_timecode") in
  match framerate with
  | Some fr =>
      if supported fr then
        match TC.from_string initial_timecode_str with
        | Raise (ValueError e) =>
            send_to_client client_id (error ("Invalid timecode format: " +:+ e))
        | Raise e => raise e
        | Ok initial_timecode =>
            session ← lift (Session.init uuid4 fr initial_timecode client_id);
            modify (set_sessions (<[uuid4 := session]>)) ;;
            set_client_session client_id uuid4 ;;
            send_to_client client_id
              (session_created uuid4 fr (TC.to_string initial_timecode))
        end
      else send_to_client client_id (error "Unsupported framerate")
  | None => send_to_client client_id (error "Unsupported framerate")
  end.

(** [session_id in self.sessions] for the value of [data.get('session_id')]:
    the id when it is present and registered. *)
Definition registered (σ : server) (session_id : option string) : option string :=
  match session_id with
  | Some sid => if bool_decide (is_Some (sessions σ !! sid)) then Some sid else None
  | None => None
  end.

(** [SMPTETimecodeServer.join_session] *)
Definition join_session (client_id : string) (data : request) : M unit :=
  σ ← get;
  match registered σ (data !! "session_id") with
  | None => send_to_client client_id (error "Session not found")
  | Some sid =>
      leave_session client_id ∅ ;;
      σ ← get;
      match sessions σ !! sid with
      | None => raise (KeyError sid)
      | Some session =>
          let session := Session.add_client client_id session in
          modify (set_sessions (<[sid := session]>)) ;;
          set_client_session client_id sid ;;
          send_to_client client_id
            (session_joined sid (Session.framerate session)
               (TC.to_string (Session.timecode session)) (Session.running session))
      end
  end.

(** [SMPTETimecodeServer.start_timecode] *)
Definition start_timecode (client_id : string) (data : request) : M unit :=
  σ ← get;
  match current_session σ client_id with
  | None => send_to_client client_id (error "Not in a session")
  | Some sid =>
      match sessions σ !! sid with
      | None => send_to_client client_id (error "Session not found")
      | Some session =>
          if Session.running session then
            send_to_client client_id (error "Timecode already running")
          else
            call_session sid Session.start_timecode ;;
            broadcast_to_session (Session.id session)
              (timecode_started (TC.to_string (Session.timecode session)))
      end
  end.

(** [SMPTETimecodeServer.stop_timecode] *)
Definition stop_timecode (client_id : string) (data : request) : M unit :=
  σ ← get;
  match current_session σ client_id with
  | None => send_to_client client_id (error "Not in a session")
  | Some sid =>
      match sessions σ !! sid with
      | None => send_to_client client_id (error "Session not found")
      | Some session =>
          if negb (Session.running session) then
            send_to_client client_id (error "Timecode not running")
          else
            call_session sid Session.stop_timecode ;;
            broadcast_to_session (Session.id session)
              (timecode_stopped (TC.to_string (Session.timecode session)))
      end
  end.

(** [SMPTETimecodeServer.reset_timecode]: the [try] block spans the parse,
    the assignment and the broadcast; only [ValueError] is handled. *)
Definition reset_timecode (client_id : string) (data : request) : M unit :=
  σ ← get;
  match current_session σ client_id with
  | None => send_to_client client_id (error "Not in a session")
  | Some sid =>
      match sessions σ !! sid with
      | None => send_to_client client_id (error "Session not found")
      | Some session =>
          let timecode_str := default "00:00:00:00" (data !! "timecode") in
          try_except
            (new_timecode ← lift (TC.from_string timecode_str);
             modify (set_sessions (<[sid := Session.with_timecode new_timecode session]>)) ;;
             broadcast_to_session (Session.id session)
               (timecode_reset (TC.to_string new_timecode)))
            (λ e, match e with
                  | ValueError e =>
                      send_to_client client_id (error ("Invalid timecode format: " +:+ e))
                  | _ => raise e
                  end)
      end
  end.

(** [SMPTETimecodeServer.handle_client_message]: the dispatch on [type]. *)
Definition handle_client_message (uuid4 : string) (client_id : string) (data : request) : M unit :=
  match data !! "type" with
  | Some ty =>
      if String.eqb ty "create_session" then create_session uuid4 client_id data
      else if String.eqb ty "join_session" then join_session client_id data
      else if String.eqb ty "leave_session" then leave_session client_id data
      else if String.eqb ty "start_timecode" then start_timecode client_id data
      else if String.eqb ty "stop_timecode" then stop_timecode client_id data
      else if String.eqb ty "reset_timecode" then reset_timecode client_id data
      else send_to_client client_id (error "Unknown command")
  | None => send_to_client client_id (error "Unknown command")
  end.

(** The body of the read loop of [handle_client] for one line: [None] is a
    line that is not valid JSON. *)
Definition handle_line (uuid4 : string) (client_id : string) (line : option request) : M unit :=
  match line with
  | None => send_to_client client_id (error "Invalid JSON message")
  | Some data =>
      try_except (handle_client_message uuid4 client_id data)
                 (λ _, send_to_client client_id (error "Internal server error"))
  end.

(** The prologue of [handle_client]: register the connection and greet it. *)
Definition connect (client_id : string) (w : Writer.t) : M unit :=
  modify (set_clients (<[client_id := Client.init client_id w]>)) ;;
  send_to_client client_id
    (welcome "Connected to SMPTE Timecode Server" (map fst SUPPORTED_FRAMERATES)).

(** One turn of [TimecodeSession._timecode_loop] after its sleep, for the
    task with handle [h].  A cancelled task never wakes up.  A session is
    dropped from the registry only after its task was cancelled, so the
    branch for a missing session is idle. *)
Definition timecode_tick (h : nat) : M unit :=
  σ ← get;
  match tasks (loop σ) !! h with
  | None => ret tt
  | Some k =>
      match sessions σ !! k with
      | None => ret tt
      | Some session =>
          if Session.running session then
            let tc := TC.increment (Session.timecode session)
                                   (Session.get_max_frames session) in
            modify (set_sessions (<[k := Session.with_timecode tc session]>)) ;;
            broadcast_to_session (Session.id session)
              (timecode_update (TC.to_string tc))
          else
            modify (λ σ, set_loop (EventLoop (delete h (tasks (loop σ)))
                                             (next_task (loop σ))) σ)
      end
  end.

(** *** The server as a transition system *)

(** The events of the server, each run to its end before the next: a
    connection arrives, a line of a connected client is handled, a
    connection handler ends, a clock task wakes up, or a transport breaks or
    starts closing. *)
Inductive event : Type :=
| Connect (client_id : string) (w : Writer.t)
| Line (uuid4 : string) (client_id : string) (line : option request)
| Disconnect (client_id : string)
| Tick (h : nat)
| TransportFails (client_id : string)
| TransportCloses (client_id : string).

Definition step (e : event) : M unit :=
  match e with
  | Connect c w => connect c w
  | Line u c line => handle_line u c line
  | Disconnect c => handle_client_disconnect c
  | Tick h => timecode_tick h
  | TransportFails c =>
      modify (set_clients (alter (λ cl,
        Client.with_writer (Writer.mk (Writer.closing (Client.writer cl)) true) cl) c))
  | TransportCloses c =>
      modify (set_clients (alter (λ cl,
        Client.with_writer (Writer.close (Client.writer cl)) cl) c))
  end.

(** [uuid.uuid4()] does not return the id of a registered session. *)
Definition enabled (e : event) (σ : server) : Prop :=
  match e with
  | Line u _ _ => sessions σ !! u = None
  | _ => True
  end.

Inductive reachable : server → Prop :=
| reachable_init : reachable initial_server
| reachable_step σ e : reachable σ → enabled e σ → reachable (exec (step e) σ).

Definition run (es : list event) (σ : server) : server :=
  foldl (λ σ e, exec (step e) σ) σ es.

(** ** The specification's reading of a timecode string *)

Module Spec.

(** A nonnegative integer field: one or more decimal digits. *)
Definition nonneg_field (p : string) : bool :=
  negb (String.eqb p "") && Py.all_chars (λ c, bool_decide (is_Some (Py.digit_of c))) p.

(** Exactly four colon-separated nonnegative integer fields. *)
Definition four_nonneg_fields (s : string) : bool :=
  match Py.split ":" s with
  | [p0; p1; p2; p3] =>
      nonneg_field p0 && nonneg_field p1 && nonneg_field p2 && nonneg_field p3
  | _ => false
  end.

(** Each component in its valid range, for a given frame count. *)
Definition in_range (max_frames : Z) (tc : SMPTETimecode) : Prop :=
  0 ≤ hours tc < 24 ∧ 0 ≤ minutes tc < 60 ∧ 0 ≤ seconds tc < 60 ∧
  0 ≤ frames tc < max_frames.

(** One second later on a 24-hour clock, frames at zero. *)
Definition next_second (tc : SMPTETimecode) : SMPTETimecode :=
  if seconds tc + 1 <? 60 then Timecode (hours tc) (minutes tc) (seconds tc + 1) 0
  else if minutes tc + 1 <? 60 then Timecode (hours tc) (minutes tc + 1) 0 0
  else if hours tc + 1 <? 24 then Timecode (hours tc + 1) 0 0 0
  else Timecode 0 0 0 0.

(** Seconds since midnight. *)
Definition seconds_of_day (tc : SMPTETimecode) : Z :=
  (hours tc * 60 + minutes tc) * 60 + seconds tc.

End Spec.

(** [n] successive calls of [increment]. *)
Definition increments (max_frames : Z) (n : nat) (tc : SMPTETimecode) : SMPTETimecode :=
  Nat.iter n (λ t, TC.increment t max_frames) tc.

(** The value of a digit sequence read left to right, as the scanner of
    [int] accumulates it. *)
Fixpoint horner (acc : Z) (d : Decimal.uint) : Z :=
  match d with
  | Decimal.Nil => acc
  | Decimal.D0 d => horner (10 * acc + 0) d
  | Decimal.D1 d => horner (10 * acc + 1) d
  | Decimal.D2 d => horner (10 * acc + 2) d
  | Decimal.D3 d => horner (10 * acc + 3) d
  | Decimal.D4 d => horner (10 * acc + 4) d
  | Decimal.D5 d => horner (10 * acc + 5) d
  | Decimal.D6 d => horner (10 * acc + 6) d
  | Decimal.D7 d => horner (10 * acc + 7) d
  | Decimal.D8 d => horner (10 * acc + 8) d
  | Decimal.D9 d => horner (10 * acc + 9) d
  end.

Definition not_space (c : ascii) : bool := negb (Py.is_space c).
Definition is_digit (c : ascii) : bool := bool_decide (is_Some (Py.digit_of c)).

(** ** The handlers as state transformers

    The net effect of the handlers that never raise, written as functions on
    the registry; the lemmas [*_run] below prove that the monadic code
    computes exactly these. *)

Definition set_wire (w : list (string * message)) (σ : server) : server :=
  Server (sessions σ) (clients σ) (loop σ) w.

(** The effect of [leave_session]. *)
Definition leave_state (client_id : string) (σ : server) : server :=
  match current_session σ client_id with
  | None => σ
  | Some sid =>
      set_clients (alter (Client.with_session_id None) client_id)
        match sessions σ !! sid with
        | None => σ
        | Some session =>
            let session' := Session.remove_client client_id session in
            if Session.is_empty session' then
              set_loop (Session.stop_timecode session' (loop σ)).2
                       (set_sessions (delete sid) σ)
            else set_sessions (<[sid := session']>) σ
        end
  end.

(** The effect of [handle_client_disconnect]. *)
Definition disconnect_state (client_id : string) (σ : server) : server :=
  set_clients (delete client_id) (leave_state client_id σ).

(** The channel of a client takes writes: the client is registered,
    connected, and its transport is not closing. *)
Definition channel_open (σ : server) (client_id : string) : bool :=
  match clients σ !! client_id with
  | Some client => Client.connected client && negb (Writer.closing (Client.writer client))
  | None => false
  end.

Definition faulty (σ : server) (client_id : string) : bool :=
  match clients σ !! client_id with
  | Some client => Writer.faulty (Client.writer client)
  | None => false
  end.

(** A write to the client goes through, or raises. *)
Definition deliverable (σ : server) (client_id : string) : bool :=
  channel_open σ client_id && negb (faulty σ client_id).
Definition failing (σ : server) (client_id : string) : bool :=
  channel_open σ client_id && faulty σ client_id.

(** The effect of [send_to_client]. *)
Definition send_state (client_id : string) (msg : message) (σ : server) : server :=
  if channel_open σ client_id then
    if faulty σ client_id then disconnect_state client_id σ
    else push_wire client_id msg σ
  else σ.

(** The effect of [broadcast_to_session]. *)
Definition broadcast_state (session_id : string) (msg : message) (σ : server) : server :=
  match sessions σ !! session_id with
  | None => σ
  | Some session =>
      foldl (λ σ c, send_state c msg σ) σ (elements (Session.clients session))
  end.

(** ** Invariant of the registry

    Every registered session is stored under its own id, has at least one
    subscriber, and is flagged running exactly when it holds a task handle;
    every live clock task is the one held by a registered session. *)
Definition wf (σ : server) : Prop :=
  (∀ k s, sessions σ !! k = Some s →
     Session.id s = k ∧ Session.clients s ≠ ∅ ∧
     (Session.running s = true ↔ is_Some (Session.task s))) ∧
  (∀ h k, tasks (loop σ) !! h = Some k →
     (h < next_task (loop σ))%nat ∧
     ∃ s, sessions σ !! k = Some s ∧ Session.task s = Some h).

(** ** Runs and scenarios *)

Definition enabledb (e : event) (σ : server) : bool :=
  match e with
  | Line u _ _ => bool_decide (sessions σ !! u = None)
  | _ => true
  end.

(** Every event of the list is enabled when its turn comes. *)
Fixpoint runnable (es : list event) (σ : server) : bool :=
  match es with
  | [] => true
  | e :: es' => enabledb e σ && runnable es' (exec (step e) σ)
  end.

Definition healthy : Writer.t := Writer.mk false false.

Definition create_request (framerate initial_timecode : string) : request :=
  {[ "type" := "create_session"; "framerate" := framerate;
     "initial_timecode" := initial_timecode ]}.
Definition join_request (session_id : string) : request :=
  {[ "type" := "join_session"; "session_id" := session_id ]}.
Definition simple_request (type : string) : request := {[ "type" := type ]}.

(** One client connected, no session. *)
Definition one_client : server := run [Connect "c1" healthy] initial_server.

(** Client [c1] alone in its session [s1], stopped at 00:00:00:29, 30 fps. *)
Definition solo_session : server :=
  run [Line "s1" "c1" (Some (create_request "30" "00:00:00:29"))] one_client.

(** The same with the clock running. *)
Definition solo_running : server :=
  run [Line "u0" "c1" (Some (simple_request "start_timecode"))] solo_session.

(** Client [c1] creates a second session without leaving the first. *)
Definition two_sessions : server :=
  run [Line "s2" "c1" (Some (create_request "24" "00:00:00:00"))] solo_session.

(** Three subscribers of [s1]; the transport of [c2] has broken. *)
Definition three_subscribers : server :=
  run [Connect "c2" healthy; Connect "c3" healthy;
       Line "u1" "c2" (Some (join_request "s1"));
       Line "u2" "c3" (Some (join_request "s1"));
       TransportFails "c2"] solo_session.

(** The first half of [TimecodeSession.stop_timecode], up to
    [await self.task]: the flag is cleared and the task is cancelled, so it
    will not wake up again, but the session still holds its handle until the
    method resumes. *)
Definition stop_begins (k : string) (σ : server) : server :=
  match sessions σ !! k with
  | Some s =>
      match Session.task s with
      | Some h =>
          if Session.running s then
            set_loop (EventLoop (delete h (tasks (loop σ))) (next_task (loop σ)))
                     (set_sessions (<[k := Session.with_running false s]>) σ)
          else σ
      | None => σ
      end
  | None => σ
  end.

(** The second half: [self.task = None]. *)
Definition stop_resumes (k : string) (σ : server) : server :=
  set_sessions (alter (Session.with_task None) k) σ.

(** Session [s1] of [solo_running] while a [stop_timecode] waits for the
    cancelled clock task. *)
Definition stop_pending : server := stop_begins "s1" solo_running.

(** The two ways [create_session] turns a request down. *)
Inductive rejection : Type :=
| UnsupportedFramerate
| MalformedTimecode (msg : string).

Definition rejection_text (r : rejection) : string :=
  match r with
  | UnsupportedFramerate => "Unsupported framerate"
  | MalformedTimecode msg => "Invalid timecode format: " +:+ msg
  end.

(** How a [create_session] request is classified: [UnsupportedFramerate]
    when the framerate is missing or is not one of the seven keys, else
    [MalformedTimecode] when parsing the initial timecode raises, else
    accepted. *)
Definition create_rejection (data : request) : option rejection :=
  match data !! "framerate" with
  | Some fr =>
      if supported fr then
        match TC.from_string (default "00:00:00:00" (data !! "initial_timecode")) with
        | Raise (ValueError msg) => Some (MalformedTimecode msg)
        | _ => None
        end
      else Some UnsupportedFramerate
  | None => Some UnsupportedFramerate
  end.

(** Two versions of a session object that differ at most in the
    subscriber set, the second having no more subscribers. *)
Definition same_clock (s s' : Session.t) : Prop :=
  Session.id s' = Session.id s ∧
  Session.framerate s' = Session.framerate s ∧
  Session.framerate_float s' = Session.framerate_float s ∧
  Session.timecode s' = Session.timecode s ∧
  Session.running s' = Session.running s ∧
  Session.task s' = Session.task s ∧
  Session.clients s' ⊆ Session.clients s.

(** What an error reply to [c] may do to the registry [σ], giving [σ']:
    it creates no task and no session; when the write goes through it only
    adds the reply to the wire; the registry is touched only when the write
    raises, and even then every session still registered keeps its flag,
    timecode and task, and the clock tasks are as before unless the
    session [c] was in is gone. *)
Definition error_reply (c text : string) (σ σ' : server) : Prop :=
  send_to_client c (error text) σ = (Ok tt, σ') ∧
  next_task (loop σ') = next_task (loop σ) ∧
  tasks (loop σ') ⊆ tasks (loop σ) ∧
  dom (sessions σ') ⊆ dom (sessions σ) ∧
  (deliverable σ c = true → σ' = push_wire c (error text) σ) ∧
  (failing σ c = false →
     sessions σ' = sessions σ ∧ clients σ' = clients σ ∧ loop σ' = loop σ) ∧
  (∀ k s', sessions σ' !! k = Some s' →
     ∃ s, sessions σ !! k = Some s ∧ same_clock s s') ∧
  (∀ sid, current_session σ c = Some sid → is_Some (sessions σ' !! sid) →
     loop σ' = loop σ).

(** ** Measures on timecodes *)

(** The number of frames since midnight, at [n] frames per second. *)
Definition frame_number (n : Z) (tc : SMPTETimecode) : Z :=
  Spec.seconds_of_day tc * n + frames tc.

(** [s.count(c)] for a character. *)
Fixpoint count_char (c : ascii) (s : string) : nat :=
  match s with
  | EmptyString => 0%nat
  | String c' s' => (if Ascii.eqb c' c then 1 else 0) + count_char c s'
  end.

(** The fixed-width form HH:MM:SS:FF: eleven characters, two decimal
    digits in each of the four fields. *)
Definition fixed_width (s : string) : bool :=
  match s with
  | String h1 (String h2 (String c1 (String m1 (String m2 (String c2
      (String s1 (String s2 (String c3 (String f1 (String f2 EmptyString)))))))))) =>
      is_digit h1 && is_digit h2 && Ascii.eqb c1 ":" &&
      is_digit m1 && is_digit m2 && Ascii.eqb c2 ":" &&
      is_digit s1 && is_digit s2 && Ascii.eqb c3 ":" &&
      is_digit f1 && is_digit f2
  | _ => false
  end.

(** Two decimal digits and nothing else. *)
Definition two_digits (s : string) : bool :=
  match s with
  | String a (String b EmptyString) => is_digit a && is_digit b
  | _ => false
  end.

(** ** A second invariant: clocks and tasks

    Every task handle a registered session holds is a live task of the
    event loop, and drives that session. *)
Definition driven (σ : server) : Prop :=
  ∀ k s h, sessions σ !! k = Some s → Session.task s = Some h →
           tasks (loop σ) !! h = Some k.

Definition inv (σ : server) : Prop := wf σ ∧ driven σ.

(** * Properties *)

(** ** The Python runtime *)

Section split_join.
Variable sep : ascii.

Lemma split_not_nil s : Py.split sep s ≠ [].
Proof.
  destruct s as [|c s]; simpl; [done|].
  destruct (Ascii.eqb c sep); [done|]. by destruct (Py.split sep s).
Qed.

Lemma join_cons p q ps :
  Py.join sep (p :: q :: ps) = p +:+ String sep (Py.join sep (q :: ps)).
Proof. reflexivity. Qed.

Lemma join_split s : Py.join sep (Py.split sep s) = s.
Proof.
  induction s as [|c s IH]; [done|].
  pose proof (split_not_nil s) as Hnil. cbn [Py.split].
  destruct (Ascii.eqb c sep) eqn:Hc.
  - apply Ascii.eqb_eq in Hc as ->.
    destruct (Py.split sep s) as [|q ps]; [done|].
    rewrite join_cons. by rewrite <- IH.
  - destruct (Py.split sep s) as [|q ps]; [done|].
    destruct ps as [|r ps]; [cbn in *; by rewrite IH|].
    rewrite join_cons in *. by rewrite <- IH.
Qed.

Lemma split_no_sep p : Py.contains sep p = false → Py.split sep p = [p].
Proof.
  induction p as [|c p IH]; [done|]. simpl. intros [Hc Hp]%orb_false_iff.
  by rewrite Hc, IH.
Qed.

Lemma split_app p rest :
  Py.contains sep p = false →
  Py.split sep (p +:+ String sep rest) = p :: Py.split sep rest.
Proof.
  induction p as [|c p IH]; simpl.
  - intros _. by rewrite Ascii.eqb_refl.
  - intros [Hc Hp]%orb_false_iff. by rewrite Hc, IH.
Qed.

Lemma split_join ps :
  ps ≠ [] → Forall (λ p, Py.contains sep p = false) ps →
  Py.split sep (Py.join sep ps) = ps.
Proof.
  intros Hnil Hall. induction Hall as [|p ps Hp Hall IH]; [done|].
  destruct ps as [|q ps].
  - simpl. by apply split_no_sep.
  - rewrite join_cons, split_app by done. by rewrite IH.
Qed.

Lemma split_contains s :
  Forall (λ p, Py.contains sep p = false) (Py.split sep s).
Proof.
  induction s as [|c s IH]; simpl; [by repeat constructor|].
  destruct (Ascii.eqb c sep) eqn:Hc; [by constructor|].
  destruct (Py.split sep s) as [|q ps]; simpl.
  - repeat constructor. simpl. by rewrite Hc.
  - inversion IH; subst. constructor; [|done]. simpl. by rewrite Hc.
Qed.

(** [split] and [join] are inverse: the fields of [s] are the unique
    separator-free strings whose [join] is [s]. *)
Lemma split_iff s ps :
  Py.split sep s = ps ↔
  s = Py.join sep ps ∧ ps ≠ [] ∧ Forall (λ p, Py.contains sep p = false) ps.
Proof.
  split.
  - intros <-. split_and!; [by rewrite join_split | apply split_not_nil | apply split_contains].
  - intros (-> & Hnil & Hall). by apply split_join.
Qed.
End split_join.

Section int_of_str.

Lemma horner_spec d acc :
  horner acc d =
  acc * 10 ^ Z.of_N (Unsigned.usize d) + Z.of_N (Unsigned.of_lu (Decimal.rev d)).
Proof.
  revert acc. induction d; intros acc; cbn [horner Unsigned.usize];
    [ unfold Decimal.rev; simpl; lia | .. ];
    rewrite IHd; unfold Decimal.rev at 2; cbn [Decimal.revapp];
    rewrite Unsigned.of_lu_revapp; cbn [Unsigned.of_lu];
    rewrite N2Z.inj_succ, Z.pow_succ_r by lia;
    rewrite N2Z.inj_add, N2Z.inj_mul, N2Z.inj_pow; simpl Z.of_N; lia.
Qed.

Lemma horner_to_uint n : horner 0 (N.to_uint n) = Z.of_N n.
Proof.
  rewrite horner_spec. simpl. rewrite <- Unsigned.of_uint_alt.
  change (Pos.of_uint (N.to_uint n)) with (N.of_uint (N.to_uint n)).
  by rewrite DecimalN.Unsigned.of_to.
Qed.

Lemma to_uint_not_nil n : N.to_uint n ≠ Decimal.Nil.
Proof. destruct n; [done|]. apply Unsigned.to_uint_nonnil. Qed.

Lemma scan_uint d acc prev :
  prev = true ∨ d ≠ Decimal.Nil →
  Py.scan_digits acc prev (NilEmpty.string_of_uint d) = Some (horner acc d).
Proof.
  revert acc prev. induction d; intros acc prev Hd;
    [ destruct Hd as [->|]; done | .. ];
    cbn [NilEmpty.string_of_uint Py.scan_digits horner];
    (etrans; [|apply (IHd _ true); by left]); reflexivity.
Qed.

Lemma scan_digits_of n acc prev :
  Py.scan_digits acc prev (Py.digits n) = Some (horner acc (N.to_uint n)).
Proof. apply scan_uint. right. apply to_uint_not_nil. Qed.

Lemma uint_all_digits d : Py.all_chars is_digit (NilEmpty.string_of_uint d) = true.
Proof. induction d; simpl; [done|..]; by rewrite IHd. Qed.

Lemma digits_cons n : ∃ c rest, Py.digits n = String c rest ∧ is_digit c = true.
Proof.
  unfold Py.digits. pose proof (to_uint_not_nil n) as Hn.
  pose proof (uint_all_digits (N.to_uint n)) as Hall.
  destruct (N.to_uint n); [done|..]; simpl in *; eauto.
Qed.

Lemma all_chars_impl (P Q : ascii → bool) s :
  (∀ c, P c = true → Q c = true) →
  Py.all_chars P s = true → Py.all_chars Q s = true.
Proof.
  intros HPQ. induction s as [|c s IH]; [done|]. simpl.
  intros [Hc Hs]%andb_true_iff. by rewrite (HPQ _ Hc), IH.
Qed.

Lemma str_app_cons c s t : String c s +:+ t = String c (s +:+ t).
Proof. reflexivity. Qed.

Lemma all_chars_app P s t :
  Py.all_chars P (s +:+ t) = Py.all_chars P s && Py.all_chars P t.
Proof.
  induction s as [|c s IH]; [done|].
  rewrite str_app_cons. simpl. by rewrite IH, andb_assoc.
Qed.

Lemma all_chars_rev P s : Py.all_chars P (Py.string_rev s) = Py.all_chars P s.
Proof.
  induction s as [|c s IH]; [done|]. simpl.
  rewrite all_chars_app, IH. simpl. by rewrite andb_true_r, andb_comm.
Qed.

Lemma str_app_nil_r s : s +:+ "" = s.
Proof. induction s as [|c s IH]; [done|]. by rewrite str_app_cons, IH. Qed.

Lemma str_app_assoc s t u : (s +:+ t) +:+ u = s +:+ (t +:+ u).
Proof. induction s as [|c s IH]; [done|]. by rewrite !str_app_cons, IH. Qed.

Lemma string_rev_app s t :
  Py.string_rev (s +:+ t) = Py.string_rev t +:+ Py.string_rev s.
Proof.
  induction s as [|c s IH].
  - simpl. by rewrite str_app_nil_r.
  - rewrite str_app_cons. simpl. by rewrite IH, str_app_assoc.
Qed.

Lemma string_rev_involutive s : Py.string_rev (Py.string_rev s) = s.
Proof.
  induction s as [|c s IH]; [done|]. simpl. rewrite string_rev_app, IH.
  reflexivity.
Qed.

Lemma lstrip_id s : Py.all_chars not_space s = true → Py.lstrip s = s.
Proof.
  destruct s as [|c s]; [done|]. simpl. unfold not_space.
  intros [Hc _]%andb_true_iff. by destruct (Py.is_space c).
Qed.

(** A string without blanks is left alone by [strip]. *)
Lemma strip_id s : Py.all_chars not_space s = true → Py.strip s = s.
Proof.
  intros Hs. unfold Py.strip. rewrite (lstrip_id s Hs).
  rewrite lstrip_id by by rewrite all_chars_rev.
  apply string_rev_involutive.
Qed.

Lemma digit_not_space c : is_digit c = true → not_space c = true.
Proof.
  unfold is_digit, not_space, Py.digit_of, Py.is_space.
  intros H%bool_decide_eq_true.
  destruct (_ && _) eqn:Hd in H; [|by destruct H].
  apply andb_true_iff in Hd as [H1%Nat.leb_le H2%Nat.leb_le].
  apply negb_true_iff, orb_false_iff; split.
  - apply andb_false_iff. right. apply Nat.leb_gt. lia.
  - apply Nat.eqb_neq. lia.
Qed.

Lemma digit_not_sign c :
  is_digit c = true → Ascii.eqb c "+" = false ∧ Ascii.eqb c "-" = false.
Proof.
  intros H. split; apply Ascii.eqb_neq; intros ->; by vm_compute in H.
Qed.

Lemma digit_not_colon c : is_digit c = true → Ascii.eqb c ":" = false.
Proof. intros H. apply Ascii.eqb_neq; intros ->; by vm_compute in H. Qed.

Lemma digit_of_range c d : Py.digit_of c = Some d → 0 ≤ d ≤ 9.
Proof.
  unfold Py.digit_of. destruct (_ && _) eqn:Hd; [|done].
  apply andb_true_iff in Hd as [H1%Nat.leb_le H2%Nat.leb_le].
  intros [= <-]. lia.
Qed.

Lemma scan_all_digits t acc prev :
  Py.all_chars is_digit t = true → 0 ≤ acc → prev = true ∨ t ≠ "" →
  ∃ z, Py.scan_digits acc prev t = Some z ∧ 0 ≤ z.
Proof.
  revert acc prev. induction t as [|c t IH]; intros acc prev Hall Hacc Hp.
  - destruct Hp as [->|]; [|done]. simpl. eauto.
  - simpl in *. apply andb_true_iff in Hall as [Hc Ht].
    apply bool_decide_eq_true in Hc as [d Hd]. rewrite Hd.
    apply digit_of_range in Hd. apply IH; [done|lia|by left].
Qed.

(** [int] reads a run of decimal digits as a nonnegative number. *)
Lemma int_of_digit_string s :
  s ≠ "" → Py.all_chars is_digit s = true →
  ∃ z, Py.int_of_str s = Some z ∧ 0 ≤ z.
Proof.
  intros Hne Hall. unfold Py.int_of_str.
  rewrite strip_id by (eapply all_chars_impl; [apply digit_not_space|done]).
  destruct s as [|c s]; [done|].
  pose proof Hall as [Hc Hs]%andb_true_iff.
  destruct (digit_not_sign c Hc) as [-> ->].
  apply scan_all_digits; [done|lia|by right].
Qed.

Lemma digits_all_digits n : Py.all_chars is_digit (Py.digits n) = true.
Proof. apply uint_all_digits. Qed.

Lemma format_02d_not_space x : Py.all_chars not_space (Py.format_02d x) = true.
Proof.
  pose proof (all_chars_impl _ _ _ digit_not_space (digits_all_digits (Z.abs_N x))) as H.
  unfold Py.format_02d. destruct (x <? 0); [by simpl; rewrite H|].
  destruct (_ <? _)%nat; [by simpl; rewrite H|done].
Qed.

(** Reading back what [02d] printed gives the number, for every integer. *)
Lemma int_of_format_02d x : Py.int_of_str (Py.format_02d x) = Some x.
Proof.
  unfold Py.int_of_str. rewrite strip_id by apply format_02d_not_space.
  unfold Py.format_02d. destruct (Z.ltb_spec x 0) as [Hneg|Hpos].
  - change (Ascii.eqb "-" "+") with false. change (Ascii.eqb "-" "-") with true.
    cbv iota. rewrite scan_digits_of, horner_to_uint. simpl. f_equal. lia.
  - destruct (_ <? _)%nat.
    + change (Ascii.eqb "0" "+") with false. change (Ascii.eqb "0" "-") with false.
      cbv iota. change (Py.scan_digits 0 false (String "0" ?b)) with (Py.scan_digits 0 true b).
      rewrite scan_digits_of, horner_to_uint. f_equal. lia.
    + destruct (digits_cons (Z.abs_N x)) as (c & rest & Heq & Hc).
      rewrite Heq. destruct (digit_not_sign c Hc) as [-> ->].
      rewrite <- Heq, scan_digits_of, horner_to_uint. f_equal. lia.
Qed.

Lemma contains_all_chars c s :
  Py.all_chars (λ c', negb (Ascii.eqb c' c)) s = true → Py.contains c s = false.
Proof.
  induction s as [|c' s IH]; [done|]. simpl.
  intros [Hc Hs]%andb_true_iff. apply negb_true_iff in Hc. by rewrite Hc, IH.
Qed.

Lemma format_02d_no_colon x : Py.contains ":" (Py.format_02d x) = false.
Proof.
  apply contains_all_chars.
  assert (Py.all_chars (λ c', negb (Ascii.eqb c' ":")) (Py.digits (Z.abs_N x)) = true) as H.
  { eapply all_chars_impl; [|apply digits_all_digits].
    intros c Hc. by rewrite (digit_not_colon c Hc). }
  unfold Py.format_02d. destruct (x <? 0); [by simpl; rewrite H|].
  destruct (_ <? _)%nat; [by simpl; rewrite H|done].
Qed.

End int_of_str.

(** ** The timecode value *)

Lemma from_string_fields p0 p1 p2 p3 h m s f :
  Py.int_of_str p0 = Some h → Py.int_of_str p1 = Some m →
  Py.int_of_str p2 = Some s → Py.int_of_str p3 = Some f →
  Forall (λ p, Py.contains ":" p = false) [p0; p1; p2; p3] →
  TC.from_string (Py.join ":" [p0; p1; p2; p3]) = Ok (Timecode h m s f).
Proof.
  intros H0 H1 H2 H3 Hsep. unfold TC.from_string.
  rewrite split_join by done. simpl. unfold TC.int_field.
  by rewrite H0, H1, H2, H3.
Qed.

(** What [from_string] accepts: the strings that split at the colons into
    exactly four fields, each of which [int] reads. *)
Lemma from_string_ok s tc :
  TC.from_string s = Ok tc ↔
  ∃ p0 p1 p2 p3,
    Py.split ":" s = [p0; p1; p2; p3] ∧
    Py.int_of_str p0 = Some (hours tc) ∧ Py.int_of_str p1 = Some (minutes tc) ∧
    Py.int_of_str p2 = Some (seconds tc) ∧ Py.int_of_str p3 = Some (frames tc).
Proof.
  unfold TC.from_string. split.
  - destruct (Py.split ":" s) as [|p0 [|p1 [|p2 [|p3 [|? ?]]]]]; simpl; try done.
    unfold TC.int_field.
    destruct (Py.int_of_str p0) eqn:E0; [|done].
    destruct (Py.int_of_str p1) eqn:E1; [|done].
    destruct (Py.int_of_str p2) eqn:E2; [|done].
    destruct (Py.int_of_str p3) eqn:E3; [|done].
    intros [= <-]. by exists p0, p1, p2, p3.
  - intros (p0 & p1 & p2 & p3 & -> & H0 & H1 & H2 & H3). simpl.
    unfold TC.int_field. rewrite H0, H1, H2, H3. by destruct tc.
Qed.

(** Anything else raises [ValueError]. *)
Lemma from_string_raises s e : TC.from_string s = Raise e → ∃ msg, e = ValueError msg.
Proof.
  unfold TC.from_string.
  destruct (Py.split ":" s) as [|p0 [|p1 [|p2 [|p3 [|? ?]]]]]; simpl;
    try (intros [= <-]; eauto; fail).
  unfold TC.int_field.
  destruct (Py.int_of_str p0); [|intros [= <-]; eauto].
  destruct (Py.int_of_str p1); [|intros [= <-]; eauto].
  destruct (Py.int_of_str p2); [|intros [= <-]; eauto].
  destruct (Py.int_of_str p3); [|intros [= <-]; eauto].
  done.
Qed.

Lemma supported_cases fr :
  supported fr = true →
  fr ∈ ["23.976"; "24"; "29.97"; "30"; "50"; "59.94"; "60"].
Proof.
  unfold supported. intros H%existsb_exists. destruct H as ([k v] & Hin & Hk).
  apply String.eqb_eq in Hk. simpl in Hk. subst k.
  apply list_elem_of_In in Hin.
  apply (list_elem_of_fmap_2 fst) in Hin. exact Hin.
Qed.

Lemma supported_float fr :
  supported fr = true →
  ∃ x, Py.float_of_str fr = Some x ∧ 1 ≤ Py.int_of_float x ∧
       Py.int_of_float x = Qfloor x.
Proof.
  intros H%supported_cases.
  repeat (apply elem_of_cons in H as [->|H];
          [eexists; split; [reflexivity|by vm_compute]|]).
  by apply elem_of_nil in H.
Qed.

Lemma session_init_ok sid fr tc c session :
  Session.init sid fr tc c = Ok session →
  Py.float_of_str fr = Some (Session.framerate_float session) ∧
  session = Session.mk sid fr (Session.framerate_float session) tc false {[c]} c None.
Proof.
  unfold Session.init. destruct (Py.float_of_str fr); [|done]. by intros [= <-].
Qed.


Lemma session_max_frames sid fr tc c session :
  supported fr = true → Session.init sid fr tc c = Ok session →
  1 ≤ Session.get_max_frames session ∧
  Session.get_max_frames session = Qfloor (Session.framerate_float session).
Proof.
  intros (x & Hx & Hn)%supported_float [Hf _]%session_init_ok.
  unfold Session.get_max_frames. rewrite Hx in Hf. by injection Hf as <-.
Qed.

Section increment.
Variable n : Z.

Lemma increment_within tc :
  frames tc + 1 < n →
  TC.increment tc n = Timecode (hours tc) (minutes tc) (seconds tc) (frames tc + 1).
Proof.
  intros H. unfold TC.increment. rewrite Z.geb_leb.
  by destruct (Z.leb_spec n (frames tc + 1)); [lia|].
Qed.

Lemma increment_rollover tc :
  n ≤ frames tc + 1 → TC.increment tc n = Spec.next_second tc.
Proof.
  intros H. unfold TC.increment, Spec.next_second. rewrite !Z.geb_leb.
  destruct (Z.leb_spec n (frames tc + 1)); [|lia].
  destruct (Z.leb_spec 60 (seconds tc + 1)), (Z.ltb_spec (seconds tc + 1) 60);
    try lia; [|done].
  destruct (Z.leb_spec 60 (minutes tc + 1)), (Z.ltb_spec (minutes tc + 1) 60);
    try lia; [|done].
  by destruct (Z.leb_spec 24 (hours tc + 1)), (Z.ltb_spec (hours tc + 1) 24);
    try lia.
Qed.

Lemma increments_S k tc :
  increments n (S k) tc = TC.increment (increments n k tc) n.
Proof. reflexivity. Qed.

Lemma increments_within k tc :
  frames tc + Z.of_nat k < n →
  increments n k tc =
  Timecode (hours tc) (minutes tc) (seconds tc) (frames tc + Z.of_nat k).
Proof.
  induction k as [|k IH]; intros Hk.
  - simpl. rewrite Z.add_0_r. by destruct tc.
  - rewrite increments_S, IH by lia.
    rewrite increment_within by (simpl; lia). simpl. f_equal. lia.
Qed.

(** [n] increments from frame 0 make exactly one second. *)
Lemma increments_one_second tc :
  1 ≤ n → frames tc = 0 →
  increments n (Z.to_nat n) tc = Spec.next_second tc.
Proof.
  intros Hn Hf. replace (Z.to_nat n) with (S (Z.to_nat (n - 1))) by lia.
  rewrite increments_S, increments_within by lia.
  rewrite increment_rollover by (simpl; lia).
  unfold Spec.next_second. simpl. by destruct tc.
Qed.
End increment.

Lemma next_second_of_day n tc :
  Spec.in_range n tc →
  frames (Spec.next_second tc) = 0 ∧
  Spec.seconds_of_day (Spec.next_second tc) = (Spec.seconds_of_day tc + 1) mod 86400 ∧
  Spec.in_range n (Timecode (hours (Spec.next_second tc)) (minutes (Spec.next_second tc))
                           (seconds (Spec.next_second tc)) (frames tc)).
Proof.
  intros (Hh & Hm & Hs & Hf). unfold Spec.next_second, Spec.seconds_of_day, Spec.in_range.
  destruct (Z.ltb_spec (seconds tc + 1) 60); [|
  destruct (Z.ltb_spec (minutes tc + 1) 60); [|
  destruct (Z.ltb_spec (hours tc + 1) 24)]]; simpl;
    (split; [done|]); (split; [|lia]).
  - rewrite Z.mod_small; lia.
  - rewrite Z.mod_small; lia.
  - rewrite Z.mod_small; lia.
  - replace ((hours tc * 60 + minutes tc) * 60 + seconds tc + 1) with 86400 by lia.
    done.
Qed.

(** C3. For each of the seven supported framerates, with [max_frames] the
    value [get_max_frames] computes for a session of that framerate (the floor
    of the rate), [max_frames] successive increments of an in-range timecode
    whose frame count is 0 give frame count 0 again and the timecode one
    second later: seconds + 1, carried into the minutes at 60, into the hours
    at 60 and back to 0 at 24 hours. *)
Theorem increment_floor_times_is_one_second sid fr tc0 c session tc :
  supported fr = true →
  Session.init sid fr tc0 c = Ok session →
  Spec.in_range (Session.get_max_frames session) tc →
  frames tc = 0 →
  let n := Session.get_max_frames session in
  n = Qfloor (Session.framerate_float session) ∧
  increments n (Z.to_nat n) tc = Spec.next_second tc ∧
  frames (increments n (Z.to_nat n) tc) = 0 ∧
  Spec.seconds_of_day (increments n (Z.to_nat n) tc)
    = (Spec.seconds_of_day tc + 1) mod 86400.
Proof.
  intros Hfr Hinit Hrange Hf n.
  destruct (session_max_frames _ _ _ _ _ Hfr Hinit) as [Hn Hfloor].
  split; [done|]. subst n.
  rewrite increments_one_second by done.
  destruct (next_second_of_day _ _ Hrange) as (? & ? & _). done.
Qed.

Lemma increment_floor_times_is_one_second_witness :
  increments 29 29 (Timecode 23 59 59 0) = Timecode 0 0 0 0.
Proof.
  assert (∃ s, Session.init "s" "29.97" (Timecode 0 0 0 0) "c" = Ok s ∧
               Session.get_max_frames s = 29) as (s & Hs & Hn)
    by (eexists; split; reflexivity).
  pose proof (increment_floor_times_is_one_second "s" "29.97" (Timecode 0 0 0 0) "c" s
                (Timecode 23 59 59 0) eq_refl Hs) as H.
  rewrite Hn in H. destruct H as (_ & H & _); [by vm_compute|reflexivity|].
  exact H.
Defined.

(** C4. For each supported framerate, with [max_frames] the value
    [get_max_frames] computes for a session of that framerate, one increment
    of 23:59:59:(max_frames-1) gives 00:00:00:00.  (The frame count reaches
    the threshold, so every comparison of the cascade fires.) *)
Theorem increment_wraps_at_midnight sid fr tc0 c session :
  supported fr = true →
  Session.init sid fr tc0 c = Ok session →
  TC.increment (Timecode 23 59 59 (Session.get_max_frames session - 1))
               (Session.get_max_frames session)
  = Timecode 0 0 0 0.
Proof.
  intros Hfr Hinit. rewrite increment_rollover by (simpl; lia). reflexivity.
Qed.

Lemma increment_wraps_at_midnight_witness :
  TC.increment (Timecode 23 59 59 58) 59 = Timecode 0 0 0 0.
Proof.
  assert (∃ s, Session.init "s" "59.94" (Timecode 0 0 0 0) "c" = Ok s ∧
               Session.get_max_frames s = 59) as (s & Hs & Hn)
    by (eexists; split; reflexivity).
  pose proof (increment_wraps_at_midnight "s" "59.94" (Timecode 0 0 0 0) "c" s
                eq_refl Hs) as H.
  rewrite Hn in H. exact H.
Defined.

(** C10. A timecode whose four fields are nonnegative integers, of any
    size, is read back unchanged from its formatted string: [from_string] is
    a left inverse of [to_string]. *)
Theorem from_string_to_string_nonneg tc :
  0 ≤ hours tc → 0 ≤ minutes tc → 0 ≤ seconds tc → 0 ≤ frames tc →
  TC.from_string (TC.to_string tc) = Ok tc.
Proof.
  intros Hh Hm Hs Hf. destruct tc as [h m s f]. simpl in *.
  unfold TC.to_string. cbn [hours minutes seconds frames].
  apply from_string_fields.
  - apply int_of_format_02d.
  - apply int_of_format_02d.
  - apply int_of_format_02d.
  - apply int_of_format_02d.
  - repeat constructor; apply format_02d_no_colon.
Qed.

Lemma from_string_to_string_nonneg_witness :
  TC.to_string (Timecode 7 0 123456 60) = "07:00:123456:60" ∧
  TC.from_string "07:00:123456:60" = Ok (Timecode 7 0 123456 60).
Proof.
  split; [reflexivity|].
  apply (from_string_to_string_nonneg (Timecode 7 0 123456 60)); simpl; lia.
Defined.

Lemma nonneg_field_int p :
  Spec.nonneg_field p = true → ∃ z, Py.int_of_str p = Some z ∧ 0 ≤ z.
Proof.
  unfold Spec.nonneg_field. intros [Hne Hall]%andb_true_iff.
  apply int_of_digit_string; [|done].
  intros ->. by vm_compute in Hne.
Qed.

(** C6, as the specification words it, fails: a field with a minus sign is
    not a nonnegative integer field, and the string is parsed all the same,
    to a negative component. *)
Lemma from_string_accepts_negative_field :
  TC.from_string "-1:00:00:00" = Ok (Timecode (-1) 0 0 0) ∧
  Spec.four_nonneg_fields "-1:00:00:00" = false.
Proof. split; reflexivity. Qed.

Lemma short_ascii_check s :
  Py.is_ascii s && (String.length s <=? Py.int_max_str_digits)%nat = true →
  Py.short_ascii s.
Proof. intros [? ?%Nat.leb_le]%andb_true_iff. by split. Qed.

(** C6, amended.  On ASCII text of at most 4300 characters, [from_string]
    succeeds exactly on the strings made of four colon-separated fields that
    [int] reads (an optional sign and decimal digits, single underscores
    between digits and blanks around them allowed), and then returns the
    four integers as read, whatever their size or sign; every other string
    raises [ValueError].  Four fields of decimal digits are always accepted,
    with nonnegative components. *)
Theorem from_string_int_fields s :
  Py.short_ascii s →
  (∀ tc, TC.from_string s = Ok tc ↔
     ∃ p0 p1 p2 p3,
       s = Py.join ":" [p0; p1; p2; p3] ∧
       Forall (λ p, Py.contains ":" p = false) [p0; p1; p2; p3] ∧
       Py.int_of_str p0 = Some (hours tc) ∧ Py.int_of_str p1 = Some (minutes tc) ∧
       Py.int_of_str p2 = Some (seconds tc) ∧ Py.int_of_str p3 = Some (frames tc)) ∧
  ((∃ tc, TC.from_string s = Ok tc) ∨ (∃ msg, TC.from_string s = Raise (ValueError msg))) ∧
  (Spec.four_nonneg_fields s = true →
     ∃ tc, TC.from_string s = Ok tc ∧
           0 ≤ hours tc ∧ 0 ≤ minutes tc ∧ 0 ≤ seconds tc ∧ 0 ≤ frames tc).
Proof.
  intros _. split_and!.
  - intros tc. rewrite from_string_ok. split.
    + intros (p0 & p1 & p2 & p3 & Hsplit & H).
      apply split_iff in Hsplit as (-> & _ & Hall). by exists p0, p1, p2, p3.
    + intros (p0 & p1 & p2 & p3 & -> & Hall & H).
      exists p0, p1, p2, p3. by rewrite split_join.
  - destruct (TC.from_string s) as [tc|e] eqn:E; [by eauto|].
    right. destruct (from_string_raises _ _ E) as [msg ->]. eauto.
  - unfold Spec.four_nonneg_fields.
    destruct (Py.split ":" s) as [|p0 [|p1 [|p2 [|p3 [|? ?]]]]] eqn:Hsplit; try done.
    intros [[[H0 H1]%andb_true_iff H2]%andb_true_iff H3]%andb_true_iff.
    apply nonneg_field_int in H0 as (h & E0 & ?), H1 as (m & E1 & ?),
      H2 as (sec & E2 & ?), H3 as (f & E3 & ?).
    exists (Timecode h m sec f). split; [|done].
    apply from_string_ok. by exists p0, p1, p2, p3.
Qed.

Lemma from_string_int_fields_witness :
  (∃ tc, TC.from_string "00:59:60:99" = Ok tc ∧ 0 ≤ seconds tc) ∧
  TC.from_string " 7:+8:0_9:-10 " = Ok (Timecode 7 8 9 (-10)) ∧
  (∃ msg, TC.from_string "1:2:3" = Raise (ValueError msg)) ∧
  (∃ msg, TC.from_string (String (ascii_of_nat 28) "7:0:0:0") = Raise (ValueError msg)).
Proof.
  split_and!.
  - destruct (proj2 (proj2 (from_string_int_fields "00:59:60:99"
                (short_ascii_check "00:59:60:99" ltac:(by vm_compute)))) eq_refl)
      as (tc & Htc & _ & _ & Hs & _). by exists tc.
  - apply (proj1 (from_string_int_fields " 7:+8:0_9:-10 "
                    (short_ascii_check " 7:+8:0_9:-10 " ltac:(by vm_compute)))).
    exists " 7", "+8", "0_9", "-10 ". split_and!; try reflexivity.
    repeat constructor.
  - destruct (proj1 (proj2 (from_string_int_fields "1:2:3"
                (short_ascii_check "1:2:3" ltac:(by vm_compute)))))
      as [[tc Htc]|H]; [|done].
    by vm_compute in Htc.
  - destruct (proj1 (proj2 (from_string_int_fields (String (ascii_of_nat 28) "7:0:0:0")
                (short_ascii_check (String (ascii_of_nat 28) "7:0:0:0")
                   ltac:(by vm_compute)))))
      as [[tc Htc]|H]; [|done].
    by vm_compute in Htc.
Defined.

(** ** The registry *)

Ltac munfold :=
  unfold mbind, M_bind, bind, mret, M_ret, ret, get, modify, raise, lift,
         try_except in *.

Lemma call_session_run k meth σ s :
  sessions σ !! k = Some s →
  call_session k meth σ =
  (Ok (meth s (loop σ)).1.1,
   set_loop (meth s (loop σ)).2 (set_sessions (<[k := (meth s (loop σ)).1.2]>) σ)).
Proof.
  intros Hk. unfold call_session. munfold. rewrite Hk.
  by destruct (meth s (loop σ)) as [[r s'] L'].
Qed.

Lemma del_session_run k σ s :
  sessions σ !! k = Some s → del_session k σ = (Ok tt, set_sessions (delete k) σ).
Proof. intros Hk. unfold del_session. munfold. by rewrite Hk. Qed.

Lemma del_client_run k σ c :
  clients σ !! k = Some c → del_client k σ = (Ok tt, set_clients (delete k) σ).
Proof. intros Hk. unfold del_client. munfold. by rewrite Hk. Qed.

Lemma server_eq σ1 σ2 :
  sessions σ1 = sessions σ2 → clients σ1 = clients σ2 → loop σ1 = loop σ2 →
  wire σ1 = wire σ2 → σ1 = σ2.
Proof. destruct σ1, σ2. simpl. by intros -> -> -> ->. Qed.

(** [leave_session] never raises and computes [leave_state]. *)
Lemma leave_session_run c d σ : leave_session c d σ = (Ok tt, leave_state c σ).
Proof.
  unfold leave_session, leave_state. munfold.
  destruct (current_session σ c) as [sid|]; [|done].
  destruct (sessions σ !! sid) as [s|] eqn:Hs; [|done].
  simpl. destruct (Session.is_empty (Session.remove_client c s)); [|done].
  erewrite call_session_run by (simpl; apply lookup_insert_eq).
  erewrite del_session_run by (simpl; apply lookup_insert_eq).
  f_equal. apply server_eq; simpl; try done.
  by rewrite insert_insert_eq, delete_insert_eq.
Qed.

(** [handle_client_disconnect] never raises and computes
    [disconnect_state]. *)
Lemma handle_client_disconnect_run c σ :
  handle_client_disconnect c σ = (Ok tt, disconnect_state c σ).
Proof.
  unfold handle_client_disconnect, disconnect_state. munfold.
  rewrite leave_session_run.
  destruct (clients (leave_state c σ) !! c) as [cl|] eqn:Hc.
  - erewrite del_client_run by (simpl; apply lookup_insert_eq).
    f_equal. apply server_eq; simpl; try done. by rewrite delete_insert_eq.
  - f_equal. apply server_eq; simpl; try done. by rewrite delete_id.
Qed.

(** [send_to_client] never raises and computes [send_state]. *)
Lemma send_to_client_run c msg σ : send_to_client c msg σ = (Ok tt, send_state c msg σ).
Proof.
  unfold send_to_client, send_state, channel_open, faulty, transport_write. munfold.
  destruct (clients σ !! c) as [cl|]; [|done].
  destruct (_ && _); [|done].
  destruct (Writer.faulty (Client.writer cl)); [|done].
  apply handle_client_disconnect_run.
Qed.

Lemma for_each_send_run msg l σ :
  for_each l (λ c, send_to_client c msg) σ =
  (Ok tt, foldl (λ σ c, send_state c msg σ) σ l).
Proof.
  revert σ. induction l as [|c l IH]; intros σ; [done|].
  cbn [for_each foldl]. munfold. by rewrite send_to_client_run, IH.
Qed.

(** [broadcast_to_session] never raises and computes [broadcast_state]. *)
Lemma broadcast_to_session_run k msg σ :
  broadcast_to_session k msg σ = (Ok tt, broadcast_state k msg σ).
Proof.
  unfold broadcast_to_session, broadcast_state. munfold.
  destruct (sessions σ !! k); [|done]. apply for_each_send_run.
Qed.

(** *** Footprint of a disconnect *)

Lemma leave_state_wire c σ : wire (leave_state c σ) = wire σ.
Proof.
  unfold leave_state. destruct (current_session σ c) as [sid|]; [|done].
  destruct (sessions σ !! sid) as [s|]; [|done].
  by destruct (Session.is_empty _).
Qed.

Lemma leave_state_clients c σ :
  clients (leave_state c σ) = clients σ ∨
  clients (leave_state c σ) = alter (Client.with_session_id None) c (clients σ).
Proof.
  unfold leave_state. destruct (current_session σ c) as [sid|]; [|by left].
  right. destruct (sessions σ !! sid) as [s|]; [|done].
  by destruct (Session.is_empty _).
Qed.

Lemma leave_state_set_wire c w σ :
  leave_state c (set_wire w σ) = set_wire w (leave_state c σ).
Proof.
  unfold leave_state, current_session. simpl.
  destruct (clients σ !! c) as [cl|]; [|done].
  destruct (truthy _); [|done].
  destruct (Client.session_id cl) as [sid|]; [|done].
  destruct (sessions σ !! sid) as [s|]; [|done].
  by destruct (Session.is_empty _).
Qed.

(** A disconnect removes the client's record and touches no other. *)
Lemma disconnect_state_clients c σ :
  clients (disconnect_state c σ) = delete c (clients σ).
Proof.
  unfold disconnect_state. simpl.
  destruct (leave_state_clients c σ) as [->| ->]; [done|].
  apply delete_alter_eq.
Qed.

Lemma disconnect_state_wire c σ : wire (disconnect_state c σ) = wire σ.
Proof. unfold disconnect_state. simpl. apply leave_state_wire. Qed.

Lemma disconnect_state_set_wire c w σ :
  disconnect_state c (set_wire w σ) = set_wire w (disconnect_state c σ).
Proof. unfold disconnect_state. by rewrite leave_state_set_wire. Qed.

Lemma foldl_disconnect_set_wire w l σ :
  foldl (λ σ c, disconnect_state c σ) (set_wire w σ) l =
  set_wire w (foldl (λ σ c, disconnect_state c σ) σ l).
Proof.
  revert σ. induction l as [|c l IH]; intros σ; [done|].
  simpl. by rewrite disconnect_state_set_wire, IH.
Qed.

Lemma foldl_disconnect_clients l σ c :
  clients (foldl (λ σ c, disconnect_state c σ) σ l) !! c =
  if decide (c ∈ l) then None else clients σ !! c.
Proof.
  revert σ. induction l as [|c' l IH]; intros σ.
  - simpl. destruct (decide (c ∈ [])) as [Hin|]; [by apply elem_of_nil in Hin|done].
  - simpl. rewrite IH, disconnect_state_clients.
    destruct (decide (c ∈ l)) as [Hin|Hnin], (decide (c ∈ c' :: l)) as [Hin'|Hnin'];
      try done.
    + exfalso. apply Hnin'. by right.
    + apply elem_of_cons in Hin' as [->|?]; [apply lookup_delete_eq|done].
    + apply lookup_delete_ne. intros ->. apply Hnin'. by left.
Qed.

Lemma channel_status_ext σ1 σ2 c :
  clients σ1 !! c = clients σ2 !! c →
  deliverable σ1 c = deliverable σ2 c ∧ failing σ1 c = failing σ2 c.
Proof.
  unfold deliverable, failing, channel_open, faulty. by intros ->.
Qed.

Lemma send_state_other c c' msg σ :
  c ≠ c' → clients (send_state c msg σ) !! c' = clients σ !! c'.
Proof.
  intros Hne. unfold send_state.
  destruct (channel_open σ c); [|done].
  destruct (faulty σ c); [|done].
  rewrite disconnect_state_clients. by apply lookup_delete_ne.
Qed.

(** The effect of a broadcast loop over a duplicate-free snapshot [l],
    in terms of the state [σ] before the first send: the clients whose
    channel takes the write each get the message once, in snapshot order,
    and the clients whose write raises are disconnected, nothing else. *)
Lemma foldl_send_state msg l σ :
  NoDup l →
  foldl (λ σ c, send_state c msg σ) σ l =
  set_wire (wire σ ++ map (λ c, (c, msg)) (List.filter (deliverable σ) l))
           (foldl (λ σ c, disconnect_state c σ) σ (List.filter (failing σ) l)).
Proof.
  intros Hnd. revert σ. induction Hnd as [|c l Hc Hnd IH]; intros σ.
  - simpl. rewrite app_nil_r. by destruct σ.
  - cbn [foldl]. rewrite IH.
    assert (∀ c', c' ∈ l →
              deliverable (send_state c msg σ) c' = deliverable σ c' ∧
              failing (send_state c msg σ) c' = failing σ c') as Hext.
    { intros c' Hc'. apply channel_status_ext, send_state_other. by intros ->. }
    rewrite (List.filter_ext_in (deliverable (send_state c msg σ)) (deliverable σ))
      by (intros c' Hc'%list_elem_of_In; by apply Hext).
    rewrite (List.filter_ext_in (failing (send_state c msg σ)) (failing σ))
      by (intros c' Hc'%list_elem_of_In; by apply Hext).
    cbn [List.filter].
    assert (deliverable σ c = channel_open σ c && negb (faulty σ c)) as -> by done.
    assert (failing σ c = channel_open σ c && faulty σ c) as -> by done.
    unfold send_state.
    destruct (channel_open σ c); [|done].
    destruct (faulty σ c); cbn [andb negb map foldl].
    + by rewrite disconnect_state_wire.
    + change (push_wire c msg σ) with (set_wire (wire σ ++ [(c, msg)]) σ).
      rewrite foldl_disconnect_set_wire. cbn [set_wire wire sessions clients loop].
      by rewrite <- app_assoc.
Qed.

(** C9. A broadcast to a registered session never raises.  With the
    subscriber set [s] of the session read once, at the call, every
    subscriber whose channel takes the write receives the message exactly
    once, whatever happens to the others; every subscriber whose write
    raises goes through the disconnect path and is dropped from the client
    map; the record of every other client is untouched; and the registry
    after the broadcast is the one obtained by disconnecting the failing
    subscribers, with nothing else changed. *)
Theorem broadcast_isolates_failures σ k s msg :
  sessions σ !! k = Some s →
  let snapshot := elements (Session.clients s) in
  ∃ (σ' : server) (delivered : list (string * message)),
    broadcast_to_session k msg σ = (Ok tt, σ') ∧
    wire σ' = (wire σ ++ delivered)%list ∧
    delivered = map (λ c, (c, msg)) (List.filter (deliverable σ) snapshot) ∧
    NoDup delivered ∧
    (∀ c, c ∈ Session.clients s → deliverable σ c = true → (c, msg) ∈ delivered) ∧
    (∀ c, c ∈ Session.clients s → failing σ c = true → clients σ' !! c = None) ∧
    (∀ c, ¬ (c ∈ Session.clients s ∧ failing σ c = true) →
          clients σ' !! c = clients σ !! c) ∧
    σ' = set_wire (wire σ ++ delivered)%list
           (foldl (λ σ c, disconnect_state c σ) σ (List.filter (failing σ) snapshot)).
Proof.
  intros Hk snapshot.
  pose proof (NoDup_elements (Session.clients s)) as Hnd. fold snapshot in Hnd.
  eexists _, _. split; [apply broadcast_to_session_run|].
  unfold broadcast_state. rewrite Hk. fold snapshot.
  rewrite (foldl_send_state msg snapshot σ Hnd).
  split_and!; try reflexivity.
  - apply NoDup_fmap_2; [by intros ?? [= ->]|].
    apply NoDup_ListNoDup, List.NoDup_filter, NoDup_ListNoDup, Hnd.
  - intros c Hc Hd. apply (list_elem_of_fmap_2 (λ c, (c, msg))).
    apply list_elem_of_In, List.filter_In. split; [|done].
    apply list_elem_of_In. unfold snapshot. by apply elem_of_elements.
  - intros c Hc Hf. simpl. rewrite foldl_disconnect_clients.
    rewrite decide_True; [done|].
    apply list_elem_of_In, List.filter_In. split; [|done].
    apply list_elem_of_In. unfold snapshot. by apply elem_of_elements.
  - intros c Hc. simpl. rewrite foldl_disconnect_clients.
    rewrite decide_False; [done|].
    intros [Hin Hf]%list_elem_of_In%List.filter_In. apply Hc. split; [|done].
    apply list_elem_of_In in Hin. unfold snapshot in Hin. by apply elem_of_elements in Hin.
Qed.

(** *** The invariant is kept by every step *)

Lemma wf_ext σ1 σ2 :
  sessions σ1 = sessions σ2 → loop σ1 = loop σ2 → wf σ1 → wf σ2.
Proof. unfold wf. by intros -> ->. Qed.

Lemma is_empty_false s : Session.is_empty s = false → Session.clients s ≠ ∅.
Proof.
  unfold Session.is_empty. intros H%Nat.eqb_neq Heq. apply H.
  rewrite Heq. apply size_empty.
Qed.

Lemma is_empty_true s : Session.is_empty s = true → Session.clients s = ∅.
Proof.
  unfold Session.is_empty. intros H%Nat.eqb_eq.
  by apply leibniz_equiv, size_empty_iff.
Qed.

(** Replacing a session by one with the same id, flag and task, and some
    subscriber left. *)
Lemma wf_update_session k s s' σ :
  wf σ → sessions σ !! k = Some s →
  Session.id s' = Session.id s → Session.running s' = Session.running s →
  Session.task s' = Session.task s → Session.clients s' ≠ ∅ →
  wf (set_sessions (<[k := s']>) σ).
Proof.
  intros [Hs Ht] Hk Hid Hrun Htask Hne. split; simpl.
  - intros k0 s0 [[<- <-]|[Hk0 Hs0]]%lookup_insert_Some; [|by apply Hs].
    destruct (Hs _ _ Hk) as (? & ? & ?). rewrite Hid, Hrun, Htask. done.
  - intros h k0 Hh. destruct (Ht _ _ Hh) as (Hlt & s0 & Hs0 & Ht0).
    split; [done|]. destruct (decide (k = k0)) as [<-|Hne0].
    + exists s'. rewrite lookup_insert_eq. split; [done|]. congruence.
    + exists s0. by rewrite lookup_insert_ne.
Qed.

(** Dropping a session whose task, if any, is cancelled on the way;
    [s'] is the session object as it is when it is stopped. *)
Lemma wf_drop_session k s s' σ :
  wf σ → sessions σ !! k = Some s →
  Session.running s' = Session.running s → Session.task s' = Session.task s →
  wf (set_loop (Session.stop_timecode s' (loop σ)).2 (set_sessions (delete k) σ)).
Proof.
  intros [Hs Ht] Hk Hrun' Htask'. destruct (Hs _ _ Hk) as (Hid & Hne & Hrun).
  assert (∀ h k0, tasks (Session.stop_timecode s' (loop σ)).2 !! h = Some k0 →
            tasks (loop σ) !! h = Some k0 ∧ k0 ≠ k) as Hsub.
  { intros h k0. unfold Session.stop_timecode. rewrite Hrun', Htask'.
    destruct (Session.task s) as [h0|] eqn:Htask.
    - destruct (Session.running s) eqn:Hr; simpl.
      + intros [Hh Hk0]%lookup_delete_Some. split; [done|]. intros ->.
        destruct (Ht _ _ Hk0) as (_ & s0 & Hs0 & Ht0). congruence.
      + intros Hk0. exfalso. apply proj2 in Hrun. by specialize (Hrun ltac:(eauto)).
    - simpl. intros Hk0. split; [done|]. intros ->.
      destruct (Ht _ _ Hk0) as (_ & s0 & Hs0 & Ht0). congruence. }
  assert (next_task (Session.stop_timecode s' (loop σ)).2 = next_task (loop σ)) as Hnext.
  { unfold Session.stop_timecode. destruct (Session.task s'); [|done].
    by destruct (Session.running s'). }
  split; simpl.
  - intros k0 s0 [_ Hs0]%lookup_delete_Some. by apply Hs.
  - intros h k0 [Hh Hk0]%Hsub. rewrite Hnext.
    destruct (Ht _ _ Hh) as (Hlt & s0 & Hs0 & Ht0). split; [done|].
    exists s0. by rewrite lookup_delete_ne.
Qed.

Lemma wf_leave_state c σ : wf σ → wf (leave_state c σ).
Proof.
  intros Hwf. unfold leave_state.
  destruct (current_session σ c) as [sid|]; [|done].
  destruct (sessions σ !! sid) as [s|] eqn:Hsid; [|by eapply wf_ext].
  destruct (Session.is_empty _) eqn:Hemp.
  - eapply wf_ext; [..|by eapply (wf_drop_session sid s (Session.remove_client c s))];
      done.
  - eapply wf_ext; [..|eapply (wf_update_session sid s (Session.remove_client c s))];
      try done. by apply is_empty_false.
Qed.

Lemma wf_disconnect_state c σ : wf σ → wf (disconnect_state c σ).
Proof. intros H. eapply wf_ext; [..|by apply (wf_leave_state c)]; done. Qed.

Lemma wf_send_state c msg σ : wf σ → wf (send_state c msg σ).
Proof.
  intros H. unfold send_state. destruct (channel_open σ c); [|done].
  destruct (faulty σ c); [by apply wf_disconnect_state|by eapply wf_ext].
Qed.

Lemma wf_broadcast_state k msg σ : wf σ → wf (broadcast_state k msg σ).
Proof.
  unfold broadcast_state. destruct (sessions σ !! k) as [s|]; [|done].
  generalize (elements (Session.clients s)). intros l. revert σ.
  induction l as [|c l IH]; intros σ Hwf; [done|].
  simpl. by apply IH, wf_send_state.
Qed.

Lemma wf_insert_new u s σ :
  wf σ → sessions σ !! u = None →
  Session.id s = u → Session.clients s ≠ ∅ →
  Session.running s = false → Session.task s = None →
  wf (set_sessions (<[u := s]>) σ).
Proof.
  intros [Hs Ht] Hu Hid Hne Hrun Htask. split; simpl.
  - intros k0 s0 [[<- <-]|[Hk0 Hs0]]%lookup_insert_Some; [|by apply Hs].
    rewrite Hrun, Htask. split_and!; [done..|]. split; [done|by intros [? ?]].
  - intros h k0 Hh. destruct (Ht _ _ Hh) as (Hlt & s0 & Hs0 & Ht0).
    split; [done|]. exists s0. rewrite lookup_insert_ne; [done|]. congruence.
Qed.

Lemma wf_start_session k s σ :
  wf σ → sessions σ !! k = Some s →
  wf (set_loop (Session.start_timecode s (loop σ)).2
        (set_sessions (<[k := (Session.start_timecode s (loop σ)).1.2]>) σ)).
Proof.
  intros Hwf Hk. pose proof Hwf as [Hs Ht].
  destruct (Hs _ _ Hk) as (Hid & Hne & Hrun).
  unfold Session.start_timecode.
  destruct (Session.running s) eqn:Hr; simpl.
  { eapply wf_ext; [..|exact Hwf]; [|done]. simpl. by rewrite insert_id. }
  destruct (Session.task s) as [h0|] eqn:Htask; simpl.
  { eapply wf_ext; [..|exact Hwf]; [|done]. simpl. by rewrite insert_id. }
  split; simpl.
  - intros k0 s0 [[<- <-]|[Hk0 Hs0]]%lookup_insert_Some; [|by apply Hs].
    simpl. split_and!; [done..|]. split; [eauto|done].
  - intros h k0 [[<- <-]|[Hh Hk0]]%lookup_insert_Some.
    + split; [lia|]. rewrite Hid, lookup_insert_eq. eauto.
    + destruct (Ht _ _ Hk0) as (Hlt & s0 & Hs0 & Ht0). split; [lia|].
      exists s0. rewrite lookup_insert_ne; [done|]. congruence.
Qed.

Lemma wf_stop_session k s σ :
  wf σ → sessions σ !! k = Some s →
  wf (set_loop (Session.stop_timecode s (loop σ)).2
        (set_sessions (<[k := (Session.stop_timecode s (loop σ)).1.2]>) σ)).
Proof.
  intros Hwf Hk. pose proof Hwf as [Hs Ht].
  destruct (Hs _ _ Hk) as (Hid & Hne & Hrun).
  unfold Session.stop_timecode.
  destruct (Session.task s) as [h0|] eqn:Htask; simpl;
    [|eapply wf_ext; [..|exact Hwf]; [|done]; simpl; by rewrite insert_id].
  destruct (Session.running s) eqn:Hr; simpl;
    [|eapply wf_ext; [..|exact Hwf]; [|done]; simpl; by rewrite insert_id].
  split; simpl.
  - intros k0 s0 [[<- <-]|[Hk0 Hs0]]%lookup_insert_Some; [|by apply Hs].
    simpl. split_and!; [done..|]. split; [done|by intros [? ?]].
  - intros h k0 [Hh Hk0]%lookup_delete_Some.
    destruct (Ht _ _ Hk0) as (Hlt & s0 & Hs0 & Ht0). split; [done|].
    exists s0. rewrite lookup_insert_ne; [done|]. congruence.
Qed.

Lemma wf_finish_task h σ :
  wf σ → wf (set_loop (EventLoop (delete h (tasks (loop σ))) (next_task (loop σ))) σ).
Proof.
  intros [Hs Ht]. split; simpl; [done|].
  intros h0 k0 [_ Hk0]%lookup_delete_Some. by apply Ht.
Qed.

Lemma wf_set_timecode k s tc σ :
  wf σ → sessions σ !! k = Some s →
  wf (set_sessions (<[k := Session.with_timecode tc s]>) σ).
Proof.
  intros Hwf Hk. eapply wf_update_session; try done.
  simpl. by destruct (proj1 Hwf _ _ Hk) as (_ & ? & _).
Qed.

Lemma add_client_not_empty c s : Session.clients (Session.add_client c s) ≠ ∅.
Proof. simpl. set_solver. Qed.

Ltac wf_send :=
  repeat first
    [ rewrite send_to_client_run | rewrite broadcast_to_session_run
    | rewrite leave_session_run ];
  cbn [snd fst];
  repeat first [ apply wf_send_state | apply wf_broadcast_state ].

Lemma wf_set_client_session c sid σ :
  wf σ → set_client_session c sid σ = (Ok tt, (set_client_session c sid σ).2) ∧
         wf (set_client_session c sid σ).2.
Proof.
  intros Hwf. unfold set_client_session. munfold.
  destruct (clients σ !! c); simpl; (split; [done|]); [by eapply wf_ext|done].
Qed.

Lemma wf_create_session u c d σ :
  wf σ → sessions σ !! u = None → wf (exec (create_session u c d) σ).
Proof.
  intros Hwf Hu. unfold exec, create_session.
  destruct (d !! "framerate") as [fr|]; [|by wf_send].
  destruct (supported fr); [|by wf_send].
  destruct (TC.from_string _) as [tc|e]; [|destruct e; by wf_send].
  munfold. destruct (Session.init u fr tc c) as [session|e] eqn:Hinit; [|done].
  apply session_init_ok in Hinit as [_ Hsession].
  assert (wf (set_sessions (<[u := session]>) σ)) as Hwf'.
  { rewrite Hsession. by apply wf_insert_new. }
  destruct (wf_set_client_session c u _ Hwf') as [-> Hwf''].
  by wf_send.
Qed.

Lemma wf_join_session c d σ : wf σ → wf (exec (join_session c d) σ).
Proof.
  intros Hwf. unfold exec, join_session. munfold.
  destruct (registered σ _) as [sid|]; [|by wf_send].
  rewrite leave_session_run. pose proof (wf_leave_state c σ Hwf) as Hwf1.
  destruct (sessions (leave_state c σ) !! sid) as [s|] eqn:Hsid; [|done].
  assert (wf (set_sessions (<[sid := Session.add_client c s]>) (leave_state c σ))) as Hwf2.
  { eapply wf_update_session; try done. apply add_client_not_empty. }
  simpl. destruct (wf_set_client_session c sid _ Hwf2) as [-> Hwf3].
  by wf_send.
Qed.

Lemma wf_start_timecode c d σ : wf σ → wf (exec (start_timecode c d) σ).
Proof.
  intros Hwf. unfold exec, start_timecode. munfold.
  destruct (current_session σ c) as [sid|]; [|by wf_send].
  destruct (sessions σ !! sid) as [s|] eqn:Hsid; [|by wf_send].
  destruct (Session.running s); [by wf_send|].
  rewrite (call_session_run _ _ _ _ Hsid). wf_send. by apply wf_start_session.
Qed.

Lemma wf_stop_timecode c d σ : wf σ → wf (exec (stop_timecode c d) σ).
Proof.
  intros Hwf. unfold exec, stop_timecode. munfold.
  destruct (current_session σ c) as [sid|]; [|by wf_send].
  destruct (sessions σ !! sid) as [s|] eqn:Hsid; [|by wf_send].
  destruct (negb (Session.running s)); [by wf_send|].
  rewrite (call_session_run _ _ _ _ Hsid). wf_send. by apply wf_stop_session.
Qed.

Lemma wf_reset_timecode c d σ : wf σ → wf (exec (reset_timecode c d) σ).
Proof.
  intros Hwf. unfold exec, reset_timecode. munfold.
  destruct (current_session σ c) as [sid|]; [|by wf_send].
  destruct (sessions σ !! sid) as [s|] eqn:Hsid; [|by wf_send].
  destruct (TC.from_string _) as [tc|e]; [|destruct e; by wf_send].
  wf_send. by apply wf_set_timecode.
Qed.

Lemma wf_handle_client_message u c d σ :
  wf σ → sessions σ !! u = None → wf (exec (handle_client_message u c d) σ).
Proof.
  intros Hwf Hu. unfold handle_client_message.
  destruct (d !! "type") as [ty|]; [|unfold exec; by wf_send].
  repeat (destruct (String.eqb ty _);
          [first [ by apply wf_create_session | by apply wf_join_session
                 | by apply wf_start_timecode | by apply wf_stop_timecode
                 | by apply wf_reset_timecode
                 | unfold exec; rewrite leave_session_run; by apply wf_leave_state ]|]).
  unfold exec. by wf_send.
Qed.

Lemma wf_step e σ : wf σ → enabled e σ → wf (exec (step e) σ).
Proof.
  intros Hwf He. destruct e as [c w|u c line|c|h|c|c]; simpl in *.
  - unfold exec, connect. munfold. wf_send. by eapply wf_ext.
  - unfold handle_line. destruct line as [d|]; [|unfold exec; by wf_send].
    pose proof (wf_handle_client_message u c d σ Hwf He) as H.
    unfold exec in *. munfold.
    destruct (handle_client_message u c d σ) as [[[]|e] σ']; [done|].
    by wf_send.
  - unfold exec. rewrite handle_client_disconnect_run. by apply wf_disconnect_state.
  - unfold exec, timecode_tick. munfold.
    destruct (tasks (loop σ) !! h) as [k|]; [|done].
    destruct (sessions σ !! k) as [s|] eqn:Hk; [|done].
    destruct (Session.running s); [|by apply wf_finish_task].
    wf_send. by apply wf_set_timecode.
  - by eapply wf_ext.
  - by eapply wf_ext.
Qed.

Lemma wf_initial : wf initial_server.
Proof. split; simpl; intros ??; by rewrite lookup_empty. Qed.

(** Every reachable registry satisfies the invariant. *)
Lemma reachable_wf σ : reachable σ → wf σ.
Proof. induction 1; [apply wf_initial|by apply wf_step]. Qed.

Lemma run_reachable es σ :
  reachable σ → runnable es σ = true → reachable (run es σ).
Proof.
  revert σ. induction es as [|e es IH]; intros σ Hr Hes; [done|].
  simpl in *. apply andb_true_iff in Hes as [He Hes].
  apply IH; [|done]. apply reachable_step; [done|].
  destruct e; simpl in *; try done. by apply bool_decide_eq_true in He.
Qed.

(** *** What a send can change *)

Lemma stop_timecode_loop s L :
  next_task (Session.stop_timecode s L).2 = next_task L ∧
  tasks (Session.stop_timecode s L).2 ⊆ tasks L.
Proof.
  unfold Session.stop_timecode. destruct (Session.task s) as [h|]; [|done].
  destruct (Session.running s); simpl; [|done].
  split; [done|]. apply delete_subseteq.
Qed.

Lemma leave_state_footprint c σ :
  next_task (loop (leave_state c σ)) = next_task (loop σ) ∧
  tasks (loop (leave_state c σ)) ⊆ tasks (loop σ) ∧
  dom (sessions (leave_state c σ)) ⊆ dom (sessions σ).
Proof.
  unfold leave_state. destruct (current_session σ c) as [sid|]; [|done].
  destruct (sessions σ !! sid) as [s|] eqn:Hsid; [|done].
  destruct (Session.is_empty _); simpl.
  - destruct (stop_timecode_loop (Session.remove_client c s) (loop σ)) as [-> ?].
    split_and!; [done..|]. apply subseteq_dom, delete_subseteq.
  - split_and!; [done..|]. rewrite dom_insert_L.
    apply elem_of_dom_2 in Hsid. apply union_least; [|done].
    by apply singleton_subseteq_l.
Qed.

Lemma same_clock_refl s : same_clock s s.
Proof. by repeat split. Qed.

(** Leaving changes no session's clock, and changes the event loop only by
    dropping the session that was left. *)
Lemma leave_state_sessions c σ :
  (∀ k s', sessions (leave_state c σ) !! k = Some s' →
     ∃ s, sessions σ !! k = Some s ∧ same_clock s s') ∧
  (∀ sid, current_session σ c = Some sid →
     is_Some (sessions (leave_state c σ) !! sid) →
     loop (leave_state c σ) = loop σ).
Proof.
  unfold leave_state. destruct (current_session σ c) as [sid|];
    [|split; [intros k s' ?; exists s'; split; [done|apply same_clock_refl]|done]].
  destruct (sessions σ !! sid) as [s|] eqn:Hsid;
    [|split; [intros k s' ?; exists s'; split; [done|apply same_clock_refl]|done]].
  destruct (Session.is_empty _); simpl; split.
  - intros k s' [_ Hk]%lookup_delete_Some. exists s'.
    split; [done|apply same_clock_refl].
  - intros ? [= <-] [? Hk]. by rewrite lookup_delete_eq in Hk.
  - intros k s' [[<- <-]|[_ Hk]]%lookup_insert_Some.
    + exists s. split; [done|]. repeat split; try done. simpl.
      apply subseteq_difference_l. done.
    + exists s'. split; [done|apply same_clock_refl].
  - done.
Qed.

(** A send never creates a task or a session; it changes the registry only
    when the write raises. *)
Lemma send_state_footprint c msg σ :
  next_task (loop (send_state c msg σ)) = next_task (loop σ) ∧
  tasks (loop (send_state c msg σ)) ⊆ tasks (loop σ) ∧
  dom (sessions (send_state c msg σ)) ⊆ dom (sessions σ) ∧
  (deliverable σ c = true → send_state c msg σ = push_wire c msg σ) ∧
  (failing σ c = false →
     sessions (send_state c msg σ) = sessions σ ∧
     clients (send_state c msg σ) = clients σ ∧
     loop (send_state c msg σ) = loop σ) ∧
  (∀ k s', sessions (send_state c msg σ) !! k = Some s' →
     ∃ s, sessions σ !! k = Some s ∧ same_clock s s') ∧
  (∀ sid, current_session σ c = Some sid →
     is_Some (sessions (send_state c msg σ) !! sid) →
     loop (send_state c msg σ) = loop σ).
Proof.
  assert (∀ k s', sessions σ !! k = Some s' →
            ∃ s, sessions σ !! k = Some s ∧ same_clock s s') as Hsame
    by (intros k s' ?; exists s'; split; [done|apply same_clock_refl]).
  unfold send_state, deliverable, failing.
  destruct (channel_open σ c); [|done].
  destruct (faulty σ c); simpl; [|done].
  destruct (leave_state_footprint c σ) as (? & ? & ?).
  destruct (leave_state_sessions c σ) as (? & ?). done.
Qed.

Lemma current_session_Some σ c sid :
  current_session σ c = Some sid ↔
  ∃ cl, clients σ !! c = Some cl ∧ Client.session_id cl = Some sid ∧ sid ≠ "".
Proof.
  unfold current_session. split.
  - destruct (clients σ !! c) as [cl|]; [|done].
    destruct (truthy _) eqn:Ht; [|done]. intros Hsid. exists cl.
    split_and!; [done..|]. intros ->. rewrite Hsid in Ht. done.
  - intros (cl & -> & Hsid & Hne). rewrite Hsid. simpl.
    apply String.eqb_neq in Hne. by rewrite Hne.
Qed.

Lemma leave_state_in c σ sid s :
  current_session σ c = Some sid → sessions σ !! sid = Some s →
  clients (leave_state c σ) = alter (Client.with_session_id None) c (clients σ) ∧
  wire (leave_state c σ) = wire σ ∧
  (Session.clients s ∖ {[c]} ≠ ∅ →
     sessions (leave_state c σ) = <[sid := Session.remove_client c s]> (sessions σ) ∧
     loop (leave_state c σ) = loop σ) ∧
  (Session.clients s ∖ {[c]} = ∅ →
     sessions (leave_state c σ) = delete sid (sessions σ) ∧
     loop (leave_state c σ) = (Session.stop_timecode (Session.remove_client c s) (loop σ)).2).
Proof.
  intros Hcur Hsid. unfold leave_state. rewrite Hcur, Hsid.
  destruct (Session.is_empty _) eqn:Hemp; simpl; (split; [done|]); (split; [done|]).
  - apply is_empty_true in Hemp. simpl in Hemp. by split.
  - apply is_empty_false in Hemp. simpl in Hemp. by split.
Qed.

(** C7 fails on the code.  Client [c1] creates session [s1], starts its
    clock and then, without leaving, creates session [s2] (the defect of
    C1), so it is a subscriber of both.  Its [leave_session] takes it out of
    [s2] only: [c1] stays in the subscriber set of [s1], and a second
    [leave_session] does nothing at all.  When [c1] then disconnects, [s1]
    is still registered and its clock task still runs, with no connected
    client among its subscribers. *)
Theorem leave_session_keeps_other_membership :
  let σ := run [Line "s2" "c1" (Some (create_request "24" "00:00:00:00"))] solo_running in
  reachable σ ∧
  (∃ s, sessions σ !! "s1" = Some s ∧ "c1" ∈ Session.clients s) ∧
  current_session σ "c1" = Some "s2" ∧
  ∃ σ1 σ2,
    leave_session "c1" ∅ σ = (Ok tt, σ1) ∧
    sessions σ1 !! "s2" = None ∧
    (∃ s, sessions σ1 !! "s1" = Some s ∧ Session.clients s = {["c1"]} ∧
          Session.running s = true) ∧
    current_session σ1 "c1" = None ∧
    leave_session "c1" ∅ σ1 = (Ok tt, σ1) ∧
    handle_client_disconnect "c1" σ1 = (Ok tt, σ2) ∧
    clients σ2 = ∅ ∧
    (∃ s, sessions σ2 !! "s1" = Some s ∧ Session.clients s = {["c1"]} ∧
          Session.running s = true ∧ Session.task s = Some 0%nat) ∧
    tasks (loop σ2) !! 0%nat = Some "s1".
Proof.
  split_and!.
  - apply (run_reachable
             [Connect "c1" healthy;
              Line "s1" "c1" (Some (create_request "30" "00:00:00:29"));
              Line "u0" "c1" (Some (simple_request "start_timecode"));
              Line "s2" "c1" (Some (create_request "24" "00:00:00:00"))]
             initial_server reachable_init).
    by vm_compute.
  - eexists. split; [by vm_compute|]. apply (bool_decide_unpack _). by vm_compute.
  - by vm_compute.
  - eexists _, _. split_and!.
    + by vm_compute.
    + by vm_compute.
    + eexists. split_and!; by vm_compute.
    + by vm_compute.
    + by vm_compute.
    + by vm_compute.
    + by vm_compute.
    + eexists. split_and!; by vm_compute.
    + by vm_compute.
Qed.

Lemma error_reply_send c text σ : error_reply c text σ (send_state c (error text) σ).
Proof.
  unfold error_reply. split; [apply send_to_client_run|].
  apply send_state_footprint.
Qed.



(** *** Creating and joining *)

Lemma create_rejection_unsupported d :
  create_rejection d = Some UnsupportedFramerate ↔
  ¬ ∃ fr, d !! "framerate" = Some fr ∧ supported fr = true.
Proof.
  unfold create_rejection. destruct (d !! "framerate") as [fr|].
  - destruct (supported fr) eqn:Hfr.
    + split; [|intros []; eauto].
      by destruct (TC.from_string _) as [|[]].
    + split; [|done]. intros _ (fr' & [= <-] & ?). congruence.
  - split; [|done]. by intros _ (fr' & ? & ?).
Qed.

Lemma create_rejection_malformed d msg :
  create_rejection d = Some (MalformedTimecode msg) ↔
  (∃ fr, d !! "framerate" = Some fr ∧ supported fr = true) ∧
  TC.from_string (default "00:00:00:00" (d !! "initial_timecode"))
    = Raise (ValueError msg).
Proof.
  unfold create_rejection. destruct (d !! "framerate") as [fr|].
  - destruct (supported fr) eqn:Hfr.
    + destruct (TC.from_string _) as [tc|e] eqn:Hparse.
      * split; [done|]. by intros [_ ?].
      * destruct (from_string_raises _ _ Hparse) as [msg' ->].
        split; [intros [= ->]; eauto|]. by intros [_ [= ->]].
    + split; [done|]. intros [(fr' & [= <-] & ?) _]. congruence.
  - split; [done|]. by intros [(fr' & ? & ?) _].
Qed.

Lemma create_rejection_none d :
  create_rejection d = None ↔
  ∃ fr tc, d !! "framerate" = Some fr ∧ supported fr = true ∧
           TC.from_string (default "00:00:00:00" (d !! "initial_timecode")) = Ok tc.
Proof.
  unfold create_rejection. destruct (d !! "framerate") as [fr|].
  - destruct (supported fr) eqn:Hfr.
    + destruct (TC.from_string _) as [tc|e] eqn:Hparse.
      * split; [eauto|done].
      * destruct (from_string_raises _ _ Hparse) as [msg' ->].
        split; [done|]. by intros (? & ? & _ & _ & ?).
    + split; [done|]. intros (fr' & tc & [= <-] & ? & _). congruence.
  - split; [done|]. by intros (fr' & tc & ? & _).
Qed.

Lemma create_session_rejected u c d σ r :
  create_rejection d = Some r →
  create_session u c d σ = send_to_client c (error (rejection_text r)) σ.
Proof.
  unfold create_rejection, create_session.
  destruct (d !! "framerate") as [fr|]; [|by intros [= <-]].
  destruct (supported fr); [|by intros [= <-]].
  destruct (TC.from_string _) as [tc|[]]; try done. by intros [= <-].
Qed.

Lemma create_session_accepted u c d σ fr tc :
  d !! "framerate" = Some fr → supported fr = true →
  TC.from_string (default "00:00:00:00" (d !! "initial_timecode")) = Ok tc →
  ∃ x, Py.float_of_str fr = Some x ∧
    create_session u c d σ =
    send_to_client c (session_created u fr (TC.to_string tc))
      (exec (set_client_session c u)
         (set_sessions (<[u := Session.mk u fr x tc false {[c]} c None]>) σ)).
Proof.
  intros Hfr Hsup Hparse. destruct (supported_float fr Hsup) as (x & Hx & _).
  exists x. split; [done|].
  unfold create_session. rewrite Hfr, Hsup, Hparse. munfold.
  unfold Session.init. rewrite Hx. unfold exec, set_client_session. munfold.
  simpl. by destruct (clients σ !! c).
Qed.

(** C5, as the specification words it, fails in two ways.  With framerate
    "24" and the initial timecode "99:99:99:99", no component of which is in
    its range, [create_session] reports no error; it registers a session
    that holds this timecode and answers [session_created].  And a request
    that is turned down can change the registry: when [c1], alone in [s1],
    asks for framerate "25" over a transport on which writes raise, sending
    the error disconnects [c1], so [s1] is deleted and [c1] is in no
    session. *)
Lemma create_session_claim_fails :
  (¬ Spec.in_range 24 (Timecode 99 99 99 99) ∧
   sessions one_client !! "s1" = None ∧
   ∃ σ' s,
     create_session "s1" "c1" (create_request "24" "99:99:99:99") one_client = (Ok tt, σ') ∧
     sessions σ' !! "s1" = Some s ∧
     Session.timecode s = Timecode 99 99 99 99 ∧
     current_session σ' "c1" = Some "s1" ∧
     wire σ' = (wire one_client ++ [("c1", session_created "s1" "24" "99:99:99:99")])%list) ∧
  (let σ := run [TransportFails "c1"] solo_session in
   create_rejection (create_request "25" "00:00:00:00") = Some UnsupportedFramerate ∧
   current_session σ "c1" = Some "s1" ∧
   is_Some (sessions σ !! "s1") ∧
   ∃ σ',
     create_session "s2" "c1" (create_request "25" "00:00:00:00") σ = (Ok tt, σ') ∧
     sessions σ' !! "s1" = None ∧
     current_session σ' "c1" = None ∧
     wire σ' = wire σ).
Proof.
  split; [split_and!|].
  - unfold Spec.in_range. simpl. lia.
  - by vm_compute.
  - eexists _, _. split_and!; by vm_compute.
  - split_and!; [by vm_compute..| |].
    + eexists. by vm_compute.
    + eexists. split_and!; by vm_compute.
Qed.

(** C5, amended.  For an initial timecode that is ASCII text of at most
    4300 characters, a [create_session] request is turned down with
    [UnsupportedFramerate] exactly when its framerate is not one of the seven
    supported keys, and otherwise with [MalformedTimecode] exactly when the
    initial timecode is not made of four colon-separated fields that [int]
    reads; the ranges of the components play no part.  When a request is
    turned down the handler does nothing but send the error to the
    requester: it returns normally, no session is created, and when the
    reply is written to the requester the session map, the client map (so
    the requester's current session) and the clock tasks are as before. *)
Theorem create_session_rejections u c d σ :
  Py.short_ascii (default "00:00:00:00" (d !! "initial_timecode")) →
  (create_rejection d = Some UnsupportedFramerate ↔
     ¬ ∃ fr, d !! "framerate" = Some fr ∧ supported fr = true) ∧
  ((∃ msg, create_rejection d = Some (MalformedTimecode msg)) ↔
     (∃ fr, d !! "framerate" = Some fr ∧ supported fr = true) ∧
     ¬ ∃ p0 p1 p2 p3 h m s f,
         Py.split ":" (default "00:00:00:00" (d !! "initial_timecode")) = [p0; p1; p2; p3] ∧
         Py.int_of_str p0 = Some h ∧ Py.int_of_str p1 = Some m ∧
         Py.int_of_str p2 = Some s ∧ Py.int_of_str p3 = Some f) ∧
  (∀ r, create_rejection d = Some r →
     create_session u c d σ = send_to_client c (error (rejection_text r)) σ ∧
     ∃ σ', create_session u c d σ = (Ok tt, σ') ∧
           error_reply c (rejection_text r) σ σ').
Proof.
  intros _. split_and!.
  - apply create_rejection_unsupported.
  - split.
    + intros [msg [Hfr Hparse]%create_rejection_malformed]. split; [done|].
      intros (p0 & p1 & p2 & p3 & h & m & s & f & Hfields).
      assert (TC.from_string (default "00:00:00:00" (d !! "initial_timecode"))
              = Ok (Timecode h m s f)) as Hok
        by (apply from_string_ok; by exists p0, p1, p2, p3).
      congruence.
    + intros [Hfr Hno].
      destruct (TC.from_string (default "00:00:00:00" (d !! "initial_timecode")))
        as [tc|e] eqn:Hparse.
      * exfalso. apply Hno. apply from_string_ok in Hparse
          as (p0 & p1 & p2 & p3 & ? & ? & ? & ? & ?).
        by exists p0, p1, p2, p3, (hours tc), (minutes tc), (seconds tc), (frames tc).
      * destruct (from_string_raises _ _ Hparse) as [msg ->].
        exists msg. by apply create_rejection_malformed.
  - intros r Hr. rewrite (create_session_rejected u c d σ r Hr).
    split; [done|]. eexists. split; [apply send_to_client_run|apply error_reply_send].
Qed.

Lemma create_session_rejections_witness :
  create_session "s1" "c1" (create_request "25" "00:00:00:00") one_client
    = (Ok tt, push_wire "c1" (error "Unsupported framerate") one_client) ∧
  create_session "s1" "c1" (create_request "24" "00:00:00") one_client
    = (Ok tt, push_wire "c1"
         (error "Invalid timecode format: Invalid timecode format. Use HH:MM:SS:FF")
         one_client) ∧
  create_session "s1" "c1" (create_request "24" "00:00:0x:00") one_client
    = (Ok tt, push_wire "c1"
         (error "Invalid timecode format: invalid literal for int() with base 10: '0x'")
         one_client).
Proof.
  split_and!.
  - destruct (proj2 (proj2 (create_session_rejections "s1" "c1"
                (create_request "25" "00:00:00:00") one_client
                (short_ascii_check "00:00:00:00" ltac:(by vm_compute))))
                UnsupportedFramerate ltac:(by vm_compute))
      as (_ & σ' & -> & _ & _ & _ & _ & Hpush & _).
    by rewrite Hpush by by vm_compute.
  - destruct (proj2 (proj2 (create_session_rejections "s1" "c1"
                (create_request "24" "00:00:00") one_client
                (short_ascii_check "00:00:00" ltac:(by vm_compute))))
                (MalformedTimecode "Invalid timecode format. Use HH:MM:SS:FF")
                ltac:(by vm_compute))
      as (_ & σ' & -> & _ & _ & _ & _ & Hpush & _).
    by rewrite Hpush by by vm_compute.
  - destruct (proj2 (proj2 (create_session_rejections "s1" "c1"
                (create_request "24" "00:00:0x:00") one_client
                (short_ascii_check "00:00:0x:00" ltac:(by vm_compute))))
                (MalformedTimecode "invalid literal for int() with base 10: '0x'")
                ltac:(by vm_compute))
      as (_ & σ' & -> & _ & _ & _ & _ & Hpush & _).
    by rewrite Hpush by by vm_compute.
Defined.

Lemma join_session_unknown c d σ :
  registered σ (d !! "session_id") = None →
  join_session c d σ = send_to_client c (error "Session not found") σ.
Proof. intros H. unfold join_session. munfold. by rewrite H. Qed.

(** The regular path of [join_session]: the target is still registered
    once the requester has left its current session. *)
Lemma join_session_joined c d σ sid s :
  registered σ (d !! "session_id") = Some sid →
  sessions (leave_state c σ) !! sid = Some s →
  join_session c d σ =
  send_to_client c
    (session_joined sid (Session.framerate s) (TC.to_string (Session.timecode s))
       (Session.running s))
    (exec (set_client_session c sid)
       (set_sessions (<[sid := Session.add_client c s]>) (leave_state c σ))).
Proof.
  intros Hreg Hs. unfold join_session. munfold.
  rewrite Hreg, leave_session_run, Hs. unfold exec, set_client_session. munfold.
  simpl. by destruct (clients (leave_state c σ) !! c).
Qed.

(** The path where the lookup after the implicit leave fails. *)
Lemma join_session_raises c d σ sid :
  registered σ (d !! "session_id") = Some sid →
  sessions (leave_state c σ) !! sid = None →
  join_session c d σ = (Raise (KeyError sid), leave_state c σ).
Proof.
  intros Hreg Hs. unfold join_session. munfold.
  by rewrite Hreg, leave_session_run, Hs.
Qed.

(** C1 fails on the code.  Client [c1] creates session [s1] and then, without
    leaving, session [s2]: the registry reached has [c1] in the subscriber
    sets of both, while [c1] itself points to [s2] only. *)
Theorem create_session_keeps_old_subscription :
  reachable two_sessions ∧
  ∃ a b, sessions two_sessions !! "s1" = Some a ∧
         sessions two_sessions !! "s2" = Some b ∧
         "c1" ∈ Session.clients a ∧ "c1" ∈ Session.clients b ∧
         current_session two_sessions "c1" = Some "s2".
Proof.
  split.
  - apply (run_reachable
             [Connect "c1" healthy;
              Line "s1" "c1" (Some (create_request "30" "00:00:00:29"));
              Line "s2" "c1" (Some (create_request "24" "00:00:00:00"))]
             initial_server reachable_init).
    by vm_compute.
  - eexists _, _. split_and!; [by vm_compute|by vm_compute|..|by vm_compute];
      apply (bool_decide_unpack _); by vm_compute.
Qed.

(** C2 fails on the code.  Client [c1] is the only subscriber of [s1] and
    asks to join [s1]: the implicit leave empties and deletes [s1], the
    lookup that follows raises [KeyError], nothing is joined, and the read
    loop answers 'Internal server error'. *)
Theorem join_own_session_raises :
  reachable solo_session ∧
  (∃ s, sessions solo_session !! "s1" = Some s ∧ Session.clients s = {["c1"]}) ∧
  ∃ σ',
    join_session "c1" (join_request "s1") solo_session = (Raise (KeyError "s1"), σ') ∧
    sessions σ' = ∅ ∧
    current_session σ' "c1" = None ∧
    handle_line "u1" "c1" (Some (join_request "s1")) solo_session
      = (Ok tt, push_wire "c1" (error "Internal server error") σ').
Proof.
  split_and!.
  - apply (run_reachable
             [Connect "c1" healthy;
              Line "s1" "c1" (Some (create_request "30" "00:00:00:29"))]
             initial_server reachable_init).
    by vm_compute.
  - eexists. split; by vm_compute.
  - eexists. split_and!; by vm_compute.
Qed.

Lemma broadcast_isolates_failures_witness :
  ∃ σ',
    broadcast_to_session "s1" (timecode_update "00:00:01:00") three_subscribers
      = (Ok tt, σ') ∧
    failing three_subscribers "c2" = true ∧
    wire σ' = (wire three_subscribers ++
                 [("c3", timecode_update "00:00:01:00");
                  ("c1", timecode_update "00:00:01:00")])%list ∧
    clients σ' !! "c2" = None ∧
    clients σ' !! "c1" = clients three_subscribers !! "c1".
Proof.
  assert (∃ s, sessions three_subscribers !! "s1" = Some s ∧
               Session.clients s = {["c1"; "c2"; "c3"]}) as (s & Hs & Hcl)
    by (eexists; split; by vm_compute).
  destruct (broadcast_isolates_failures three_subscribers "s1" s
              (timecode_update "00:00:01:00") Hs)
    as (σ' & delivered & Hrun & Hwire & Hdel & _ & _ & Hfail & Hkeep & _).
  exists σ'. split_and!.
  - done.
  - by vm_compute.
  - rewrite Hwire, Hdel, Hcl. by vm_compute.
  - apply Hfail; [rewrite Hcl; apply (bool_decide_unpack _)|]; by vm_compute.
  - apply Hkeep. intros [_ Hf]. by vm_compute in Hf.
Defined.

(** *** Two scenarios of the specification, run on the model *)

(** A 30 fps session created at 00:00:00:29 and started shows 00:00:01:00
    after exactly one tick. *)
Example one_tick_after_start :
  ∃ s, sessions (run [Tick 0%nat] solo_running) !! "s1" = Some s ∧
       TC.to_string (Session.timecode s) = "00:00:01:00" ∧
       last (wire (run [Tick 0%nat] solo_running))
         = Some ("c1", timecode_update "00:00:01:00").
Proof. eexists. split_and!; by vm_compute. Qed.

(** A reset on a running session is broadcast at once, with the exact
    value, and the clock keeps running. *)
Example reset_while_running :
  let d : request := {[ "type" := "reset_timecode"; "timecode" := "01:00:00:00" ]} in
  ∃ s, sessions (run [Line "u1" "c1" (Some d)] solo_running) !! "s1" = Some s ∧
       Session.timecode s = Timecode 1 0 0 0 ∧ Session.running s = true ∧
       last (wire (run [Line "u1" "c1" (Some d)] solo_running))
         = Some ("c1", timecode_reset "01:00:00:00").
Proof. eexists. split_and!; by vm_compute. Qed.

(** * Further properties of the code *)

(** ** [SMPTETimecode] *)

Section frame_counter.
Variable n : Z.
Hypothesis n_pos : 1 ≤ n.

Lemma seconds_of_day_range tc :
  Spec.in_range n tc → 0 ≤ Spec.seconds_of_day tc < 86400.
Proof. intros (? & ? & ? & ?). unfold Spec.seconds_of_day. lia. Qed.

Lemma frame_number_range tc :
  Spec.in_range n tc → 0 ≤ frame_number n tc < 86400 * n.
Proof.
  intros Hr. pose proof (seconds_of_day_range tc Hr) as Hs.
  destruct Hr as (_ & _ & _ & Hf). unfold frame_number.
  assert (0 ≤ Spec.seconds_of_day tc * n) by (apply Z.mul_nonneg_nonneg; lia).
  assert (Spec.seconds_of_day tc * n ≤ 86399 * n) by (apply Z.mul_le_mono_nonneg_r; lia).
  lia.
Qed.

Lemma increment_frame_number tc :
  Spec.in_range n tc →
  Spec.in_range n (TC.increment tc n) ∧
  frame_number n (TC.increment tc n) = (frame_number n tc + 1) mod (86400 * n).
Proof.
  intros Hr. pose proof (frame_number_range tc Hr) as Hfn.
  pose proof Hr as (Hh & Hm & Hs & Hf).
  destruct (Z.lt_ge_cases (frames tc + 1) n) as [Hlt|Hge].
  - rewrite increment_within by done. split.
    + unfold Spec.in_range. simpl. lia.
    + pose proof (seconds_of_day_range tc Hr) as Hsod.
      assert (Spec.seconds_of_day tc * n ≤ 86399 * n)
        by (apply Z.mul_le_mono_nonneg_r; lia).
      rewrite Z.mod_small by (unfold frame_number in *; lia).
      unfold frame_number, Spec.seconds_of_day. simpl. lia.
  - rewrite increment_rollover by done.
    destruct (next_second_of_day n tc Hr) as (Hf0 & Hsod & Hr').
    split.
    + destruct Hr' as (? & ? & ? & _). simpl in *.
      unfold Spec.in_range. rewrite Hf0. lia.
    + transitivity (((Spec.seconds_of_day tc + 1) * n) mod (86400 * n)).
      * rewrite Z.mul_mod_distr_r by lia. unfold frame_number.
        rewrite Hf0, Hsod. lia.
      * f_equal. unfold frame_number. lia.
Qed.

Lemma increments_frame_number k tc :
  Spec.in_range n tc →
  Spec.in_range n (increments n k tc) ∧
  frame_number n (increments n k tc) = (frame_number n tc + Z.of_nat k) mod (86400 * n).
Proof.
  intros Hr. induction k as [|k [IHr IHf]].
  - simpl. split; [done|]. pose proof (frame_number_range tc Hr).
    rewrite Z.add_0_r, Z.mod_small; lia.
  - rewrite increments_S.
    destruct (increment_frame_number _ IHr) as [Hr' Hf']. split; [done|].
    rewrite Hf', IHf, Zplus_mod_idemp_l. f_equal. lia.
Qed.

(** In-range timecodes are determined by their frame number. *)
Lemma frame_number_inj tc1 tc2 :
  Spec.in_range n tc1 → Spec.in_range n tc2 →
  frame_number n tc1 = frame_number n tc2 → tc1 = tc2.
Proof.
  intros (Hh1 & Hm1 & Hs1 & Hf1) (Hh2 & Hm2 & Hs2 & Hf2) Heq.
  unfold frame_number, Spec.seconds_of_day in Heq.
  destruct tc1 as [h1 m1 s1 f1], tc2 as [h2 m2 s2 f2].
  cbn [hours minutes seconds frames] in *.
  rewrite (Z.mul_comm _ n), (Z.mul_comm _ n) in Heq.
  apply Z.div_mod_unique in Heq as [Hsod ->]; [|lia..].
  assert (s1 = s2 ∧ h1 * 60 + m1 = h2 * 60 + m2) as [-> Hhm] by lia.
  assert (m1 = m2 ∧ h1 = h2) as [-> ->] by lia.
  done.
Qed.
End frame_counter.

(** X1. One increment keeps an in-range timecode in range and advances its
    frame number by exactly one, modulo the number of frames in a day. *)
Theorem increment_advances_one_frame n tc :
  1 ≤ n → Spec.in_range n tc →
  Spec.in_range n (TC.increment tc n) ∧
  frame_number n (TC.increment tc n) = (frame_number n tc + 1) mod (86400 * n).
Proof. intros Hn Hr. by apply increment_frame_number. Qed.

Lemma increment_advances_one_frame_witness :
  Spec.in_range 30 (TC.increment (Timecode 10 59 59 29) 30) ∧
  frame_number 30 (TC.increment (Timecode 10 59 59 29) 30)
    = (frame_number 30 (Timecode 10 59 59 29) + 1) mod (86400 * 30).
Proof.
  apply (increment_advances_one_frame 30 (Timecode 10 59 59 29)); [lia|].
  unfold Spec.in_range. simpl. lia.
Defined.

(** X2. Any number [k] of increments keeps an in-range timecode in range and
    advances its frame number by [k] modulo a day; so after a whole day of
    frames, 86400 * max_frames increments, the timecode is the one it
    started from. *)
Theorem increments_cycle_daily n k tc :
  1 ≤ n → Spec.in_range n tc →
  Spec.in_range n (increments n k tc) ∧
  frame_number n (increments n k tc)
    = (frame_number n tc + Z.of_nat k) mod (86400 * n) ∧
  increments n (Z.to_nat (86400 * n)) tc = tc.
Proof.
  intros Hn Hr.
  destruct (increments_frame_number n Hn k tc Hr) as [Hrk Hfk].
  split_and!; [done..|].
  destruct (increments_frame_number n Hn (Z.to_nat (86400 * n)) tc Hr) as [Hrd Hfd].
  apply (frame_number_inj n); [done..|].
  pose proof (frame_number_range n Hn tc Hr).
  rewrite Hfd, Z2Nat.id, <- (Z.mul_1_l (86400 * n)) at 1 by lia.
  rewrite Z.mod_add, Z.mod_small; lia.
Qed.

Lemma increments_cycle_daily_witness :
  frame_number 24 (increments 24 100 (Timecode 23 59 58 0))
    = (frame_number 24 (Timecode 23 59 58 0) + 100) mod (86400 * 24) ∧
  increments 24 (Z.to_nat (86400 * 24)) (Timecode 23 59 58 0) = Timecode 23 59 58 0.
Proof.
  destruct (increments_cycle_daily 24 100 (Timecode 23 59 58 0)) as (_ & H1 & H2);
    [lia|unfold Spec.in_range; simpl; lia|].
  by split.
Defined.

(** [to_string] followed by [from_string] is the identity on every
    timecode, whatever the sign of its components. *)
Lemma from_string_to_string_any tc : TC.from_string (TC.to_string tc) = Ok tc.
Proof.
  destruct tc as [h m s f]. unfold TC.to_string. cbn [hours minutes seconds frames].
  apply from_string_fields; try apply int_of_format_02d.
  repeat constructor; apply format_02d_no_colon.
Qed.

(** X3. [to_string] never prints two different timecodes alike, negative
    or oversized components included: the string determines the timecode,
    and [from_string] recovers it. *)
Theorem to_string_injective tc :
  TC.from_string (TC.to_string tc) = Ok tc ∧
  ∀ tc', TC.to_string tc = TC.to_string tc' → tc = tc'.
Proof.
  split; [apply from_string_to_string_any|].
  intros tc' Heq. pose proof (from_string_to_string_any tc) as H1.
  rewrite Heq, from_string_to_string_any in H1. by injection H1.
Qed.

Lemma format_02d_two_digits x :
  0 ≤ x < 100 → two_digits (Py.format_02d x) = true.
Proof.
  intros Hx.
  assert (forallb (λ k, two_digits (Py.format_02d (Z.of_nat k))) (seq 0 100) = true)
    as Hall by (by vm_compute).
  rewrite forallb_forall in Hall.
  specialize (Hall (Z.to_nat x)). rewrite Z2Nat.id in Hall by lia.
  apply Hall, in_seq. lia.
Qed.

Lemma two_digits_int p :
  two_digits p = true →
  ∃ z, Py.int_of_str p = Some z ∧ 0 ≤ z < 100 ∧ Py.contains ":" p = false.
Proof.
  destruct p as [|a [|b [|? ?]]]; try done. simpl.
  intros [Ha Hb]%andb_true_iff.
  pose proof Ha as [da Hda]%bool_decide_eq_true.
  pose proof Hb as [db Hdb]%bool_decide_eq_true.
  exists (10 * da + db). split_and!.
  - unfold Py.int_of_str. rewrite strip_id
      by (simpl; by rewrite (digit_not_space a Ha), (digit_not_space b Hb)).
    destruct (digit_not_sign a Ha) as [-> ->]. simpl. rewrite Hda, Hdb.
    f_equal; lia.
  - apply digit_of_range in Hda, Hdb. lia.
  - apply digit_of_range in Hda, Hdb. lia.
  - by rewrite (digit_not_colon a Ha), (digit_not_colon b Hb).
Qed.

Lemma fixed_width_join s :
  fixed_width s = true ↔
  ∃ p0 p1 p2 p3, s = Py.join ":" [p0; p1; p2; p3] ∧
    two_digits p0 = true ∧ two_digits p1 = true ∧
    two_digits p2 = true ∧ two_digits p3 = true.
Proof.
  split.
  - destruct s as [|h1 [|h2 [|c1 [|m1 [|m2 [|c2 [|s1 [|s2 [|c3 [|f1 [|f2 [|? ?]]]]]]]]]]]];
      try done. simpl.
    intros H. repeat (apply andb_true_iff in H as [H ?]).
    repeat match goal with
           | Hc : Ascii.eqb _ ":" = true |- _ => apply Ascii.eqb_eq in Hc as ->
           end.
    exists (String h1 (String h2 "")), (String m1 (String m2 "")),
           (String s1 (String s2 "")), (String f1 (String f2 "")).
    simpl. split; [reflexivity|]. by repeat (split; [by apply andb_true_iff|]);
      apply andb_true_iff.
  - intros (p0 & p1 & p2 & p3 & -> & H0 & H1 & H2 & H3).
    destruct p0 as [|a0 [|b0 [|? ?]]]; try done.
    destruct p1 as [|a1 [|b1 [|? ?]]]; try done.
    destruct p2 as [|a2 [|b2 [|? ?]]]; try done.
    destruct p3 as [|a3 [|b3 [|? ?]]]; try done.
    simpl in *.
    apply andb_true_iff in H0 as [-> ->], H1 as [-> ->], H2 as [-> ->], H3 as [-> ->].
    reflexivity.
Qed.

(** X4. The string [to_string] prints has the fixed-width form HH:MM:SS:FF
    (eleven characters, two digits per field) exactly when every component
    is between 0 and 99; a negative or larger component, which
    [from_string] lets in, makes the output leave that form. *)
Theorem to_string_fixed_width tc :
  fixed_width (TC.to_string tc) = true ↔
  0 ≤ hours tc < 100 ∧ 0 ≤ minutes tc < 100 ∧
  0 ≤ seconds tc < 100 ∧ 0 ≤ frames tc < 100.
Proof.
  rewrite fixed_width_join. split.
  - intros (p0 & p1 & p2 & p3 & Heq & H0 & H1 & H2 & H3).
    apply two_digits_int in H0 as (h & E0 & ? & C0), H1 as (m & E1 & ? & C1),
      H2 as (sec & E2 & ? & C2), H3 as (f & E3 & ? & C3).
    pose proof (from_string_to_string_any tc) as Hrt.
    rewrite Heq, (from_string_fields p0 p1 p2 p3 h m sec f) in Hrt
      by (done || by repeat constructor).
    injection Hrt as <-. simpl. done.
  - intros (Hh & Hm & Hs & Hf).
    exists (Py.format_02d (hours tc)), (Py.format_02d (minutes tc)),
           (Py.format_02d (seconds tc)), (Py.format_02d (frames tc)).
    split; [done|]. split_and!; by apply format_02d_two_digits.
Qed.

Lemma to_string_fixed_width_witness :
  fixed_width (TC.to_string (Timecode 23 59 59 29)) = true ∧
  fixed_width (TC.to_string (Timecode 100 0 0 0)) = false ∧
  fixed_width (TC.to_string (Timecode 0 0 (-1) 0)) = false.
Proof.
  split_and!.
  - apply (proj2 (to_string_fixed_width (Timecode 23 59 59 29))). simpl. lia.
  - destruct (fixed_width (TC.to_string (Timecode 100 0 0 0))) eqn:E; [|done].
    apply (proj1 (to_string_fixed_width (Timecode 100 0 0 0))) in E. simpl in E. lia.
  - destruct (fixed_width (TC.to_string (Timecode 0 0 (-1) 0))) eqn:E; [|done].
    apply (proj1 (to_string_fixed_width (Timecode 0 0 (-1) 0))) in E. simpl in E. lia.
Defined.

Lemma split_length sep s : length (Py.split sep s) = S (count_char sep s).
Proof.
  induction s as [|c s IH]; [done|]. simpl.
  destruct (Ascii.eqb c sep); simpl; [by rewrite IH|].
  pose proof (split_not_nil sep s). destruct (Py.split sep s); [done|].
  simpl in *. lia.
Qed.

Lemma int_field_message p e :
  TC.int_field p = Raise e →
  Py.int_of_str p = None ∧
  e = ValueError ("invalid literal for int() with base 10: "
                  +:+ Py.truncate 200 (Py.repr p)).
Proof.
  unfold TC.int_field. destruct (Py.int_of_str p); [done|]. by intros [= <-].
Qed.

(** X5. On ASCII text of at most 4300 characters, [from_string] raises its
    own error, 'Invalid timecode format. Use HH:MM:SS:FF', exactly when the
    string does not contain exactly three colons; any other failure is the
    error of [int] on one of the four fields, the field named is one [int]
    does not read, and the message shows the [repr] of that field cut after
    200 characters. *)
Theorem from_string_error_kinds s :
  Py.short_ascii s →
  (TC.from_string s = Raise (ValueError "Invalid timecode format. Use HH:MM:SS:FF")
     ↔ count_char ":" s ≠ 3%nat) ∧
  (∀ e, TC.from_string s = Raise e → count_char ":" s = 3%nat →
     ∃ p, p ∈ Py.split ":" s ∧ Py.int_of_str p = None ∧
          e = ValueError ("invalid literal for int() with base 10: "
                          +:+ Py.truncate 200 (Py.repr p))).
Proof.
  intros _.
  assert (∀ e, TC.from_string s = Raise e → count_char ":" s = 3%nat →
     ∃ p, p ∈ Py.split ":" s ∧ Py.int_of_str p = None ∧
          e = ValueError ("invalid literal for int() with base 10: "
                          +:+ Py.truncate 200 (Py.repr p)))
    as Hint.
  { intros e He Hc. unfold TC.from_string in He.
    pose proof (split_length ":" s) as Hlen. rewrite Hc in Hlen.
    destruct (Py.split ":" s) as [|p0 [|p1 [|p2 [|p3 [|? ?]]]]]; try done.
    simpl in He.
    destruct (TC.int_field p0) eqn:E0;
      [|injection He as <-; apply int_field_message in E0 as [? ->];
        exists p0; split_and!; [set_solver|done..]].
    destruct (TC.int_field p1) eqn:E1;
      [|injection He as <-; apply int_field_message in E1 as [? ->];
        exists p1; split_and!; [set_solver|done..]].
    destruct (TC.int_field p2) eqn:E2;
      [|injection He as <-; apply int_field_message in E2 as [? ->];
        exists p2; split_and!; [set_solver|done..]].
    destruct (TC.int_field p3) eqn:E3;
      [|injection He as <-; apply int_field_message in E3 as [? ->];
        exists p3; split_and!; [set_solver|done..]].
    done. }
  split; [|done]. split.
  - intros He Hc. destruct (Hint _ He Hc) as (p & _ & _ & Hp).
    injection Hp as Hp. cbv [String.append] in Hp. discriminate Hp.
  - intros Hc. unfold TC.from_string.
    pose proof (split_length ":" s) as Hlen.
    destruct (Nat.eqb_spec (length (Py.split ":" s)) 4) as [H4|H4]; [lia|done].
Qed.

Lemma from_string_error_kinds_witness :
  TC.from_string "12:00:00" = Raise (ValueError "Invalid timecode format. Use HH:MM:SS:FF") ∧
  ∃ p, p ∈ ["12"; "a'b"; "00"; "yy"] ∧ Py.int_of_str p = None ∧
       TC.from_string "12:a'b:00:yy"
       = Raise (ValueError ("invalid literal for int() with base 10: "
                            +:+ Py.truncate 200 (Py.repr p))).
Proof.
  split.
  - apply (proj1 (from_string_error_kinds "12:00:00"
                    (short_ascii_check "12:00:00" ltac:(by vm_compute)))).
    by vm_compute.
  - destruct (proj2 (from_string_error_kinds "12:a'b:00:yy"
                       (short_ascii_check "12:a'b:00:yy" ltac:(by vm_compute)))
                (ValueError ("invalid literal for int() with base 10: "
                             +:+ String Py.dquote ("a'b" +:+ String Py.dquote "")))
                ltac:(by vm_compute) ltac:(by vm_compute)) as (p & Hin & Hnone & Hp).
    exists p. split_and!; [done..|]. rewrite <- Hp. by vm_compute.
Defined.

(** The messages of [int] for a few fields, as CPython prints them: the
    quotes change when the field holds a single quote, control characters
    are escaped, and the [repr] is cut after 200 characters. *)
Example int_field_messages :
  TC.int_field "xx" = Raise (ValueError "invalid literal for int() with base 10: 'xx'") ∧
  TC.int_field "a'b"
    = Raise (ValueError ("invalid literal for int() with base 10: "
                         +:+ String Py.dquote ("a'b" +:+ String Py.dquote ""))) ∧
  TC.int_field (String (ascii_of_nat 28) "7")
    = Raise (ValueError ("invalid literal for int() with base 10: '"
                         +:+ String Py.backslash "x1c7'")) ∧
  TC.int_field (String (ascii_of_nat 9) "x")
    = Raise (ValueError ("invalid literal for int() with base 10: '"
                         +:+ String Py.backslash "tx'")) ∧
  TC.int_field (String (ascii_of_nat 9) "7") = Ok 7 ∧
  ∃ msg, TC.int_field (Py.join "x" (repeat "" 301)) = Raise (ValueError msg) ∧
         String.length msg = 240%nat.
Proof. split_and!; try by vm_compute. eexists. split; by vm_compute. Qed.

(** ** Clocks and tasks *)

Lemma inv_ext σ1 σ2 :
  sessions σ1 = sessions σ2 → loop σ1 = loop σ2 → inv σ1 → inv σ2.
Proof.
  intros Hs Hl [Hwf Hd]. split; [by eapply wf_ext|].
  unfold driven in *. by rewrite <- Hs, <- Hl.
Qed.

Lemma inv_update_session k s s' σ :
  inv σ → sessions σ !! k = Some s →
  Session.id s' = Session.id s → Session.running s' = Session.running s →
  Session.task s' = Session.task s → Session.clients s' ≠ ∅ →
  inv (set_sessions (<[k := s']>) σ).
Proof.
  intros [Hwf Hd] Hk Hid Hrun Htask Hne. split; [by eapply wf_update_session|].
  unfold driven. simpl. intros k0 s0 h [[<- <-]|[Hk0 Hs0]]%lookup_insert_Some Hh; simpl.
  - rewrite Htask in Hh. by eapply Hd.
  - by eapply Hd.
Qed.

Lemma stop_timecode_tasks s L :
  tasks (Session.stop_timecode s L).2 =
  match Session.task s with
  | Some h => if Session.running s then delete h (tasks L) else tasks L
  | None => tasks L
  end.
Proof.
  unfold Session.stop_timecode. destruct (Session.task s); [|done].
  by destruct (Session.running s).
Qed.

Lemma inv_drop_session k s s' σ :
  inv σ → sessions σ !! k = Some s →
  Session.running s' = Session.running s → Session.task s' = Session.task s →
  inv (set_loop (Session.stop_timecode s' (loop σ)).2 (set_sessions (delete k) σ)).
Proof.
  intros [Hwf Hd] Hk Hrun Htask. split; [by eapply wf_drop_session|].
  unfold driven. simpl. intros k0 s0 h0 [Hne Hk0]%lookup_delete_Some Hh0.
  rewrite stop_timecode_tasks, Hrun, Htask.
  pose proof (Hd _ _ _ Hk0 Hh0) as Hlive.
  destruct (Session.task s) as [h|] eqn:Hts; [|done].
  destruct (Session.running s); [|done].
  rewrite lookup_delete_ne; [done|]. intros <-.
  pose proof (Hd _ _ _ Hk Hts). congruence.
Qed.

Lemma inv_leave_state c σ : inv σ → inv (leave_state c σ).
Proof.
  intros Hinv. unfold leave_state.
  destruct (current_session σ c) as [sid|]; [|done].
  destruct (sessions σ !! sid) as [s|] eqn:Hsid; [|by eapply inv_ext].
  destruct (Session.is_empty _) eqn:Hemp.
  - eapply inv_ext; [..|by eapply (inv_drop_session sid s (Session.remove_client c s))];
      done.
  - eapply inv_ext; [..|eapply (inv_update_session sid s (Session.remove_client c s))];
      try done. by apply is_empty_false.
Qed.

Lemma inv_disconnect_state c σ : inv σ → inv (disconnect_state c σ).
Proof. intros H. eapply inv_ext; [..|by apply (inv_leave_state c)]; done. Qed.

Lemma inv_send_state c msg σ : inv σ → inv (send_state c msg σ).
Proof.
  intros H. unfold send_state. destruct (channel_open σ c); [|done].
  destruct (faulty σ c); [by apply inv_disconnect_state|by eapply inv_ext].
Qed.

Lemma inv_broadcast_state k msg σ : inv σ → inv (broadcast_state k msg σ).
Proof.
  unfold broadcast_state. destruct (sessions σ !! k) as [s|]; [|done].
  generalize (elements (Session.clients s)). intros l. revert σ.
  induction l as [|c l IH]; intros σ Hinv; [done|].
  simpl. by apply IH, inv_send_state.
Qed.

Lemma inv_insert_new u s σ :
  inv σ → sessions σ !! u = None →
  Session.id s = u → Session.clients s ≠ ∅ →
  Session.running s = false → Session.task s = None →
  inv (set_sessions (<[u := s]>) σ).
Proof.
  intros [Hwf Hd] Hu Hid Hne Hrun Htask. split; [by apply wf_insert_new|].
  unfold driven. simpl. intros k0 s0 h [[<- <-]|[Hk0 Hs0]]%lookup_insert_Some Hh; simpl.
  - congruence.
  - by eapply Hd.
Qed.

Lemma inv_start_session k s σ :
  inv σ → sessions σ !! k = Some s →
  inv (set_loop (Session.start_timecode s (loop σ)).2
        (set_sessions (<[k := (Session.start_timecode s (loop σ)).1.2]>) σ)).
Proof.
  intros [Hwf Hd] Hk. split; [by apply wf_start_session|].
  pose proof Hwf as [Hs Ht]. destruct (Hs _ _ Hk) as (Hid & _ & _).
  unfold driven, Session.start_timecode.
  destruct (Session.running s || bool_decide (is_Some (Session.task s))); simpl.
  - intros k0 s0 h [[<- <-]|[Hk0 Hs0]]%lookup_insert_Some Hh; by eapply Hd.
  - intros k0 s0 h [[<- <-]|[Hk0 Hs0]]%lookup_insert_Some Hh; simpl in *.
    + injection Hh as <-. by rewrite lookup_insert_eq, Hid.
    + pose proof (Hd _ _ _ Hs0 Hh) as Hlive.
      destruct (Ht _ _ Hlive) as [Hlt _].
      rewrite lookup_insert_ne; [done|lia].
Qed.

Lemma inv_stop_session k s σ :
  inv σ → sessions σ !! k = Some s →
  inv (set_loop (Session.stop_timecode s (loop σ)).2
        (set_sessions (<[k := (Session.stop_timecode s (loop σ)).1.2]>) σ)).
Proof.
  intros [Hwf Hd] Hk. split; [by apply wf_stop_session|].
  unfold driven, Session.stop_timecode.
  destruct (Session.task s) as [h|] eqn:Hts; simpl;
    [|intros k0 s0 h0 [[<- <-]|[Hk0 Hs0]]%lookup_insert_Some Hh; by eapply Hd].
  destruct (Session.running s) eqn:Hr; simpl;
    [|intros k0 s0 h0 [[<- <-]|[Hk0 Hs0]]%lookup_insert_Some Hh; by eapply Hd].
  intros k0 s0 h0 [[<- <-]|[Hk0 Hs0]]%lookup_insert_Some Hh; [done|].
  pose proof (Hd _ _ _ Hs0 Hh) as Hlive.
  rewrite lookup_delete_ne; [done|]. intros <-.
  pose proof (Hd _ _ _ Hk Hts). congruence.
Qed.

Lemma inv_set_timecode k s tc σ :
  inv σ → sessions σ !! k = Some s →
  inv (set_sessions (<[k := Session.with_timecode tc s]>) σ).
Proof.
  intros Hinv Hk. eapply inv_update_session; try done.
  simpl. by destruct (proj1 (proj1 Hinv) _ _ Hk) as (_ & ? & _).
Qed.

(** Under the invariant the loop of a live task finds its session running. *)
Lemma live_task_running σ h k :
  inv σ → tasks (loop σ) !! h = Some k →
  ∃ s, sessions σ !! k = Some s ∧ Session.task s = Some h ∧
       Session.running s = true ∧ Session.id s = k.
Proof.
  intros [[Hs Ht] _] Hh. destruct (Ht _ _ Hh) as (_ & s & Hk & Htask).
  destruct (Hs _ _ Hk) as (Hid & _ & Hrun).
  exists s. split_and!; [done..| |done]. apply Hrun. eauto.
Qed.

Ltac inv_send :=
  repeat first
    [ rewrite send_to_client_run | rewrite broadcast_to_session_run
    | rewrite leave_session_run ];
  cbn [snd fst];
  repeat first [ apply inv_send_state | apply inv_broadcast_state ].

Lemma inv_set_client_session c sid σ :
  inv σ → set_client_session c sid σ = (Ok tt, (set_client_session c sid σ).2) ∧
          inv (set_client_session c sid σ).2.
Proof.
  intros Hinv. unfold set_client_session. munfold.
  destruct (clients σ !! c); simpl; (split; [done|]); [by eapply inv_ext|done].
Qed.

Lemma inv_create_session u c d σ :
  inv σ → sessions σ !! u = None → inv (exec (create_session u c d) σ).
Proof.
  intros Hinv Hu. unfold exec, create_session.
  destruct (d !! "framerate") as [fr|]; [|by inv_send].
  destruct (supported fr); [|by inv_send].
  destruct (TC.from_string _) as [tc|e]; [|destruct e; by inv_send].
  munfold. destruct (Session.init u fr tc c) as [session|e] eqn:Hinit; [|done].
  apply session_init_ok in Hinit as [_ Hsession].
  assert (inv (set_sessions (<[u := session]>) σ)) as Hinv'.
  { rewrite Hsession. by apply inv_insert_new. }
  destruct (inv_set_client_session c u _ Hinv') as [-> Hinv''].
  by inv_send.
Qed.

Lemma inv_join_session c d σ : inv σ → inv (exec (join_session c d) σ).
Proof.
  intros Hinv. unfold exec, join_session. munfold.
  destruct (registered σ _) as [sid|]; [|by inv_send].
  rewrite leave_session_run. pose proof (inv_leave_state c σ Hinv) as Hinv1.
  destruct (sessions (leave_state c σ) !! sid) as [s|] eqn:Hsid; [|done].
  assert (inv (set_sessions (<[sid := Session.add_client c s]>) (leave_state c σ))) as Hinv2.
  { eapply inv_update_session; try done. apply add_client_not_empty. }
  simpl. destruct (inv_set_client_session c sid _ Hinv2) as [-> Hinv3].
  by inv_send.
Qed.

Lemma inv_start_timecode c d σ : inv σ → inv (exec (start_timecode c d) σ).
Proof.
  intros Hinv. unfold exec, start_timecode. munfold.
  destruct (current_session σ c) as [sid|]; [|by inv_send].
  destruct (sessions σ !! sid) as [s|] eqn:Hsid; [|by inv_send].
  destruct (Session.running s); [by inv_send|].
  rewrite (call_session_run _ _ _ _ Hsid). inv_send. by apply inv_start_session.
Qed.

Lemma inv_stop_timecode c d σ : inv σ → inv (exec (stop_timecode c d) σ).
Proof.
  intros Hinv. unfold exec, stop_timecode. munfold.
  destruct (current_session σ c) as [sid|]; [|by inv_send].
  destruct (sessions σ !! sid) as [s|] eqn:Hsid; [|by inv_send].
  destruct (negb (Session.running s)); [by inv_send|].
  rewrite (call_session_run _ _ _ _ Hsid). inv_send. by apply inv_stop_session.
Qed.

Lemma inv_reset_timecode c d σ : inv σ → inv (exec (reset_timecode c d) σ).
Proof.
  intros Hinv. unfold exec, reset_timecode. munfold.
  destruct (current_session σ c) as [sid|]; [|by inv_send].
  destruct (sessions σ !! sid) as [s|] eqn:Hsid; [|by inv_send].
  destruct (TC.from_string _) as [tc|e]; [|destruct e; by inv_send].
  inv_send. by apply inv_set_timecode.
Qed.

Lemma inv_handle_client_message u c d σ :
  inv σ → sessions σ !! u = None → inv (exec (handle_client_message u c d) σ).
Proof.
  intros Hinv Hu. unfold handle_client_message.
  destruct (d !! "type") as [ty|]; [|unfold exec; by inv_send].
  repeat (destruct (String.eqb ty _);
          [first [ by apply inv_create_session | by apply inv_join_session
                 | by apply inv_start_timecode | by apply inv_stop_timecode
                 | by apply inv_reset_timecode
                 | unfold exec; rewrite leave_session_run; by apply inv_leave_state ]|]).
  unfold exec. by inv_send.
Qed.

Lemma inv_step e σ : inv σ → enabled e σ → inv (exec (step e) σ).
Proof.
  intros Hinv He. destruct e as [c w|u c line|c|h|c|c]; simpl in *.
  - unfold exec, connect. munfold. inv_send. by eapply inv_ext.
  - unfold handle_line. destruct line as [d|]; [|unfold exec; by inv_send].
    pose proof (inv_handle_client_message u c d σ Hinv He) as H.
    unfold exec in *. munfold.
    destruct (handle_client_message u c d σ) as [[[]|e] σ']; [done|].
    by inv_send.
  - unfold exec. rewrite handle_client_disconnect_run. by apply inv_disconnect_state.
  - unfold exec, timecode_tick. munfold.
    destruct (tasks (loop σ) !! h) as [k|] eqn:Hh; [|done].
    destruct (live_task_running σ h k Hinv Hh) as (s & Hk & _ & Hrun & _).
    rewrite Hk, Hrun. inv_send. by apply inv_set_timecode.
  - by eapply inv_ext.
  - by eapply inv_ext.
Qed.

Lemma inv_initial : inv initial_server.
Proof.
  split; [apply wf_initial|]. intros k s h Hk. simpl in Hk.
  by rewrite lookup_empty in Hk.
Qed.

Lemma reachable_inv σ : reachable σ → inv σ.
Proof. induction 1; [apply inv_initial|by apply inv_step]. Qed.



(** ** Broadcasts after a change of the session *)

Lemma same_clock_trans s1 s2 s3 : same_clock s1 s2 → same_clock s2 s3 → same_clock s1 s3.
Proof.
  intros (? & ? & ? & ? & ? & ? & ?) (? & ? & ? & ? & ? & ? & ?).
  repeat split; try congruence. by etrans.
Qed.

Lemma foldl_send_footprint msg l σ :
  next_task (loop (foldl (λ σ c, send_state c msg σ) σ l)) = next_task (loop σ) ∧
  tasks (loop (foldl (λ σ c, send_state c msg σ) σ l)) ⊆ tasks (loop σ) ∧
  (∀ k s', sessions (foldl (λ σ c, send_state c msg σ) σ l) !! k = Some s' →
     ∃ s, sessions σ !! k = Some s ∧ same_clock s s').
Proof.
  revert σ. induction l as [|c l IH]; intros σ.
  - simpl. split_and!; [done..|]. intros k s' ?. exists s'.
    split; [done|apply same_clock_refl].
  - cbn [foldl]. destruct (IH (send_state c msg σ)) as (Hn & Ht & Hs).
    destruct (send_state_footprint c msg σ) as (Hn1 & Ht1 & _ & _ & _ & Hs1 & _).
    split_and!.
    + congruence.
    + by etrans.
    + intros k s' Hk. destruct (Hs _ _ Hk) as (s1 & Hk1 & Hc1).
      destruct (Hs1 _ _ Hk1) as (s0 & Hk0 & Hc0). exists s0.
      split; [done|by eapply same_clock_trans].
Qed.

(** What a broadcast to the registered session [k] does: the subscribers
    whose channel takes the write get the message, no session changes but in
    its subscriber set, no task is created, and nothing but the wire changes
    when no subscriber's write raises. *)
Lemma broadcast_state_effect k s msg σ :
  sessions σ !! k = Some s →
  wire (broadcast_state k msg σ) =
    (wire σ ++ map (λ c, (c, msg))
                   (List.filter (deliverable σ) (elements (Session.clients s))))%list ∧
  next_task (loop (broadcast_state k msg σ)) = next_task (loop σ) ∧
  tasks (loop (broadcast_state k msg σ)) ⊆ tasks (loop σ) ∧
  (∀ k' s', sessions (broadcast_state k msg σ) !! k' = Some s' →
     ∃ s0, sessions σ !! k' = Some s0 ∧ same_clock s0 s') ∧
  ((∀ c, c ∈ Session.clients s → failing σ c = false) →
     sessions (broadcast_state k msg σ) = sessions σ ∧
     clients (broadcast_state k msg σ) = clients σ ∧
     loop (broadcast_state k msg σ) = loop σ).
Proof.
  intros Hk. unfold broadcast_state. rewrite Hk.
  destruct (foldl_send_footprint msg (elements (Session.clients s)) σ) as (Hn & Ht & Hs).
  split_and!; [|done..|].
  - by rewrite (foldl_send_state msg _ σ (NoDup_elements _)).
  - intros Hnone. rewrite (foldl_send_state msg _ σ (NoDup_elements _)).
    assert (List.filter (failing σ) (elements (Session.clients s)) = []) as ->.
    { rewrite (List.filter_ext_in (failing σ) (λ _, false)); [apply List.filter_false|].
      intros c Hc%list_elem_of_In%elem_of_elements. by apply Hnone. }
    done.
Qed.

Lemma reachable_solo_session : reachable solo_session.
Proof.
  apply (run_reachable
           [Connect "c1" healthy;
            Line "s1" "c1" (Some (create_request "30" "00:00:00:29"))]
           initial_server reachable_init).
  by vm_compute.
Qed.

Lemma reachable_solo_running : reachable solo_running.
Proof.
  apply (run_reachable
           [Line "u0" "c1" (Some (simple_request "start_timecode"))]
           solo_session reachable_solo_session).
  by vm_compute.
Qed.

Lemma reachable_three_subscribers : reachable three_subscribers.
Proof.
  apply (run_reachable
           [Connect "c2" healthy; Connect "c3" healthy;
            Line "u1" "c2" (Some (join_request "s1"));
            Line "u2" "c3" (Some (join_request "s1"));
            TransportFails "c2"]
           solo_session reachable_solo_session).
  by vm_compute.
Qed.

Lemma deliverable_ext σ1 σ2 l :
  clients σ1 = clients σ2 →
  List.filter (deliverable σ1) l = List.filter (deliverable σ2) l.
Proof.
  intros Hc. apply List.filter_ext. intros c.
  apply channel_status_ext. by rewrite Hc.
Qed.

Lemma failing_ext σ1 σ2 c : clients σ1 = clients σ2 → failing σ1 c = failing σ2 c.
Proof. intros Hc. apply channel_status_ext. by rewrite Hc. Qed.

Lemma session_start_fresh s L :
  Session.running s = false → Session.task s = None →
  Session.start_timecode s L =
  (true, Session.with_task (Some (next_task L)) (Session.with_running true s),
   EventLoop (<[next_task L := Session.id s]> (tasks L)) (S (next_task L))).
Proof. intros Hr Ht. unfold Session.start_timecode. by rewrite Hr, Ht. Qed.

Lemma session_stop_live s L h :
  Session.running s = true → Session.task s = Some h →
  Session.stop_timecode s L =
  (true, Session.with_task None (Session.with_running false s),
   EventLoop (delete h (tasks L)) (next_task L)).
Proof. intros Hr Ht. unfold Session.stop_timecode. by rewrite Hr, Ht. Qed.

Lemma start_timecode_run c d σ sid s :
  current_session σ c = Some sid → sessions σ !! sid = Some s →
  Session.running s = false →
  start_timecode c d σ =
  (Ok tt,
   broadcast_state (Session.id s) (timecode_started (TC.to_string (Session.timecode s)))
     (set_loop (Session.start_timecode s (loop σ)).2
        (set_sessions (<[sid := (Session.start_timecode s (loop σ)).1.2]>) σ))).
Proof.
  intros Hcur Hsid Hrun. unfold start_timecode. munfold.
  rewrite Hcur, Hsid, Hrun, (call_session_run _ _ _ _ Hsid).
  by rewrite broadcast_to_session_run.
Qed.


(** X7. [start_timecode] by a client whose session (stored under its own
    id, as every session is) is not flagged running returns normally and
    sends 'timecode_started' with the session's timecode to every subscriber
    whose channel takes the write.  When the session holds no task, it gets
    the next task of the event loop as its clock and is flagged running,
    its timecode untouched; when no subscriber's write raises, nothing else
    in the registry changes.  When the session still holds a task, which is
    its state while a [stop_timecode] waits for the cancelled task, no clock
    is started: the session keeps its flag, task and timecode and no task is
    created, although 'timecode_started' has been announced. *)
Theorem start_timecode_starts_clock σ c sid s d :
  current_session σ c = Some sid →
  sessions σ !! sid = Some s →
  Session.id s = sid →
  Session.running s = false →
  let h := next_task (loop σ) in
  let msg := timecode_started (TC.to_string (Session.timecode s)) in
  ∃ σ',
    start_timecode c d σ = (Ok tt, σ') ∧
    wire σ' = (wire σ ++ map (λ c', (c', msg))
                 (List.filter (deliverable σ) (elements (Session.clients s))))%list ∧
    (Session.task s = None →
       (∀ s', sessions σ' !! sid = Some s' →
          Session.running s' = true ∧ Session.task s' = Some h ∧
          Session.timecode s' = Session.timecode s) ∧
       ((∀ c', c' ∈ Session.clients s → failing σ c' = false) →
          sessions σ' =
            <[sid := Session.with_task (Some h) (Session.with_running true s)]>
              (sessions σ) ∧
          clients σ' = clients σ ∧
          loop σ' = EventLoop (<[h := sid]> (tasks (loop σ))) (S h))) ∧
    (is_Some (Session.task s) →
       (∀ s', sessions σ' !! sid = Some s' →
          Session.running s' = false ∧ Session.task s' = Session.task s ∧
          Session.timecode s' = Session.timecode s) ∧
       next_task (loop σ') = next_task (loop σ) ∧
       tasks (loop σ') ⊆ tasks (loop σ) ∧
       ((∀ c', c' ∈ Session.clients s → failing σ c' = false) →
          sessions σ' = sessions σ ∧ clients σ' = clients σ ∧ loop σ' = loop σ)).
Proof.
  intros Hcur Hsid Hid Hrun h msg.
  rewrite (start_timecode_run c d σ sid s Hcur Hsid Hrun), Hid.
  set (s1 := (Session.start_timecode s (loop σ)).1.2).
  set (σ1 := set_loop _ (set_sessions (<[sid := s1]>) σ)).
  assert (sessions σ1 !! sid = Some s1) as Hsid1 by (simpl; apply lookup_insert_eq).
  assert (Session.clients s1 = Session.clients s ∧
          Session.timecode s1 = Session.timecode s) as [Hcl1 Htc1].
  { unfold s1, Session.start_timecode. by destruct (_ || _). }
  destruct (broadcast_state_effect sid s1 msg σ1 Hsid1) as (Hw & Hn & Ht & Hsame & Hquiet).
  assert (∀ c', failing σ1 c' = failing σ c') as Hfail
    by (intros c'; by apply failing_ext).
  exists (broadcast_state sid msg σ1). split_and!; [done|..].
  - rewrite Hw, Hcl1. by rewrite (deliverable_ext σ1 σ).
  - intros Htask.
    assert (s1 = Session.with_task (Some h) (Session.with_running true s) ∧
            loop σ1 = EventLoop (<[h := sid]> (tasks (loop σ))) (S h)) as [Hs1 Hl1].
    { unfold s1, σ1. rewrite (session_start_fresh s (loop σ) Hrun Htask), Hid. done. }
    split.
    + intros s' Hs'. destruct (Hsame _ _ Hs') as (s0 & Hs0 & Hc).
      rewrite Hsid1 in Hs0. injection Hs0 as <-.
      destruct Hc as (_ & _ & _ & Htc & Hr & Hta & _).
      rewrite Htc, Hr, Hta, Hs1. done.
    + intros Hnone. destruct Hquiet as (-> & -> & ->).
      { intros c' Hc'. rewrite Hfail. apply Hnone. by rewrite <- Hcl1. }
      split_and!; [simpl; by rewrite Hs1|done|done].
  - intros Htask.
    assert (Session.start_timecode s (loop σ) = (false, s, loop σ)) as Hno.
    { unfold Session.start_timecode. rewrite Hrun.
      by rewrite (bool_decide_eq_true_2 _ Htask). }
    assert (s1 = s) as Hs1 by (unfold s1; by rewrite Hno).
    assert (loop σ1 = loop σ ∧ sessions σ1 = sessions σ) as [Hl1 Hss1].
    { unfold σ1. rewrite Hno, Hs1. simpl. split; [done|]. by apply insert_id. }
    split_and!.
    + intros s' Hs'. destruct (Hsame _ _ Hs') as (s0 & Hs0 & Hc).
      rewrite Hsid1 in Hs0. injection Hs0 as <-.
      destruct Hc as (_ & _ & _ & Htc & Hr & Hta & _).
      rewrite Htc, Hr, Hta, Hs1. done.
    + by rewrite Hn, Hl1.
    + by rewrite <- Hl1.
    + intros Hnone. destruct Hquiet as (-> & -> & ->).
      { intros c' Hc'. rewrite Hfail. apply Hnone. by rewrite <- Hcl1. }
      done.
Qed.

Lemma start_timecode_starts_clock_witness :
  (∃ σ', start_timecode "c1" ∅ solo_session = (Ok tt, σ') ∧
         wire σ' = (wire solo_session ++ [("c1", timecode_started "00:00:00:29")])%list ∧
         loop σ' = EventLoop {[ 0%nat := "s1" ]} 1) ∧
  (∃ σ', start_timecode "c1" ∅ stop_pending = (Ok tt, σ') ∧
         wire σ' = (wire stop_pending ++ [("c1", timecode_started "00:00:00:29")])%list ∧
         sessions σ' = sessions stop_pending ∧
         loop σ' = EventLoop ∅ 1).
Proof.
  split.
  - assert (∃ s, sessions solo_session !! "s1" = Some s ∧ Session.running s = false ∧
                 Session.clients s = {["c1"]} ∧ Session.id s = "s1" ∧
                 Session.task s = None ∧
                 Session.timecode s = Timecode 0 0 0 29)
      as (s & Hs & Hrun & Hcl & Hid & Htask & Htc)
      by (eexists; split_and!; by vm_compute).
    destruct (start_timecode_starts_clock solo_session "c1" "s1" s ∅
                ltac:(by vm_compute) Hs Hid Hrun)
      as (σ' & Hstart & Hw & Hfresh & _).
    exists σ'. split_and!; [done|..].
    + rewrite Hw, Hcl, Htc. by vm_compute.
    + destruct (Hfresh Htask) as [_ Hquiet].
      destruct Hquiet as (_ & _ & ->); [|by vm_compute].
      intros c' Hc'. rewrite Hcl in Hc'. apply elem_of_singleton in Hc' as ->.
      by vm_compute.
  - assert (∃ s, sessions stop_pending !! "s1" = Some s ∧ Session.running s = false ∧
                 Session.clients s = {["c1"]} ∧ Session.id s = "s1" ∧
                 Session.task s = Some 0%nat ∧
                 Session.timecode s = Timecode 0 0 0 29)
      as (s & Hs & Hrun & Hcl & Hid & Htask & Htc)
      by (eexists; split_and!; by vm_compute).
    destruct (start_timecode_starts_clock stop_pending "c1" "s1" s ∅
                ltac:(by vm_compute) Hs Hid Hrun)
      as (σ' & Hstart & Hw & _ & Hpending).
    destruct (Hpending ltac:(rewrite Htask; eauto)) as (_ & _ & _ & Hquiet).
    destruct Hquiet as (Hss & _ & Hl).
    { intros c' Hc'. rewrite Hcl in Hc'. apply elem_of_singleton in Hc' as ->.
      by vm_compute. }
    exists σ'. split_and!; [done| |done|].
    + rewrite Hw, Hcl, Htc. by vm_compute.
    + rewrite Hl. by vm_compute.
Defined.



Lemma timecode_tick_run h k s σ :
  tasks (loop σ) !! h = Some k → sessions σ !! k = Some s →
  Session.running s = true →
  timecode_tick h σ =
  (Ok tt,
   broadcast_state (Session.id s)
     (timecode_update
        (TC.to_string (TC.increment (Session.timecode s) (Session.get_max_frames s))))
     (set_sessions
        (<[k := Session.with_timecode
                  (TC.increment (Session.timecode s) (Session.get_max_frames s)) s]>) σ)).
Proof.
  intros Hh Hk Hrun. unfold timecode_tick. munfold. rewrite Hh, Hk, Hrun.
  by rewrite broadcast_to_session_run.
Qed.

(** X9. In a reachable registry, the wake-up of a clock task that is not
    live (never created, or cancelled) changes nothing.  The wake-up of a
    live task advances the timecode of the one session it drives by exactly
    one increment with that session's frame count, leaves every other
    session's timecode alone, and sends 'timecode_update' with the new
    timecode to every subscriber whose channel takes the write. *)
Theorem tick_advances_driven_session σ h :
  reachable σ →
  (tasks (loop σ) !! h = None → timecode_tick h σ = (Ok tt, σ)) ∧
  (∀ k, tasks (loop σ) !! h = Some k →
     ∃ s σ',
       sessions σ !! k = Some s ∧
       timecode_tick h σ = (Ok tt, σ') ∧
       wire σ' =
         (wire σ ++
          map (λ c, (c, timecode_update (TC.to_string
                     (TC.increment (Session.timecode s) (Session.get_max_frames s)))))
              (List.filter (deliverable σ) (elements (Session.clients s))))%list ∧
       (∀ s', sessions σ' !! k = Some s' →
          Session.timecode s'
            = TC.increment (Session.timecode s) (Session.get_max_frames s) ∧
          Session.running s' = true) ∧
       (∀ k' s', k' ≠ k → sessions σ' !! k' = Some s' →
          ∃ s0, sessions σ !! k' = Some s0 ∧
                Session.timecode s' = Session.timecode s0)).
Proof.
  intros Hinv%reachable_inv. split.
  - intros Hh. unfold timecode_tick. munfold. by rewrite Hh.
  - intros k Hh.
    destruct (live_task_running σ h k Hinv Hh) as (s & Hk & _ & Hrun & Hid).
    set (tc := TC.increment (Session.timecode s) (Session.get_max_frames s)).
    set (s1 := Session.with_timecode tc s).
    set (σ1 := set_sessions (<[k := s1]>) σ).
    assert (sessions σ1 !! k = Some s1) as Hk1 by (simpl; apply lookup_insert_eq).
    destruct (broadcast_state_effect k s1 (timecode_update (TC.to_string tc)) σ1 Hk1)
      as (Hw & _ & _ & Hsame & _).
    exists s, (broadcast_state k (timecode_update (TC.to_string tc)) σ1).
    split_and!; [done|..].
    + rewrite (timecode_tick_run h k s σ Hh Hk Hrun). by rewrite Hid.
    + rewrite Hw. by rewrite (deliverable_ext σ1 σ).
    + intros s' Hs'. destruct (Hsame _ _ Hs') as (s0 & Hs0 & Hc).
      rewrite Hk1 in Hs0. injection Hs0 as <-.
      destruct Hc as (_ & _ & _ & Htc & Hr & _). by rewrite Htc, Hr.
    + intros k' s' Hne Hs'. destruct (Hsame _ _ Hs') as (s0 & Hs0 & Hc).
      simpl in Hs0. rewrite lookup_insert_ne in Hs0 by done.
      exists s0. split; [done|]. by destruct Hc as (_ & _ & _ & Htc & _).
Qed.

Lemma tick_advances_driven_session_witness :
  timecode_tick 7%nat solo_running = (Ok tt, solo_running) ∧
  ∃ σ', timecode_tick 0%nat solo_running = (Ok tt, σ') ∧
        ∀ s', sessions σ' !! "s1" = Some s' → Session.timecode s' = Timecode 0 0 1 0.
Proof.
  destruct (tick_advances_driven_session solo_running 7%nat reachable_solo_running)
    as [Hdead _].
  destruct (tick_advances_driven_session solo_running 0%nat reachable_solo_running)
    as [_ Hlive].
  split; [apply Hdead; by vm_compute|].
  assert (∃ s0, sessions solo_running !! "s1" = Some s0 ∧
            TC.increment (Session.timecode s0) (Session.get_max_frames s0) = Timecode 0 0 1 0)
    as (s0 & Hs0 & Hinc) by (eexists; split; by vm_compute).
  destruct (Hlive "s1" ltac:(by vm_compute)) as (s & σ' & Hs & Htick & _ & Htc & _).
  rewrite Hs0 in Hs. injection Hs as <-.
  exists σ'. split; [exact Htick|]. intros s' Hs'.
  destruct (Htc s' Hs') as [-> _]. exact Hinc.
Defined.

Lemma reset_timecode_run c d σ sid s tc :
  current_session σ c = Some sid → sessions σ !! sid = Some s →
  TC.from_string (default "00:00:00:00" (d !! "timecode")) = Ok tc →
  reset_timecode c d σ =
  (Ok tt,
   broadcast_state (Session.id s) (timecode_reset (TC.to_string tc))
     (set_sessions (<[sid := Session.with_timecode tc s]>) σ)).
Proof.
  intros Hcur Hsid Hparse. unfold reset_timecode. munfold.
  rewrite Hcur, Hsid, Hparse. by rewrite broadcast_to_session_run.
Qed.

(** X10. [reset_timecode] by a client in a registered session (stored
    under its own id, as every session is), for a timecode given as ASCII
    text of at most 4300 characters: when the text parses, the session's
    timecode becomes the parsed value whether or not the clock runs (flag
    and task are kept, no task is created), and 'timecode_reset' with the
    re-formatted value is sent to every subscriber whose channel takes the
    write; when the text does not parse, the handler does nothing but send
    the requester the error with the message of the parser. *)
Theorem reset_timecode_replaces σ c sid s d :
  current_session σ c = Some sid →
  sessions σ !! sid = Some s →
  Session.id s = sid →
  Py.short_ascii (default "00:00:00:00" (d !! "timecode")) →
  (∀ tc, TC.from_string (default "00:00:00:00" (d !! "timecode")) = Ok tc →
     ∃ σ',
       reset_timecode c d σ = (Ok tt, σ') ∧
       wire σ' = (wire σ ++ map (λ c', (c', timecode_reset (TC.to_string tc)))
                    (List.filter (deliverable σ) (elements (Session.clients s))))%list ∧
       next_task (loop σ') = next_task (loop σ) ∧
       tasks (loop σ') ⊆ tasks (loop σ) ∧
       (∀ s', sessions σ' !! sid = Some s' →
          Session.timecode s' = tc ∧ Session.running s' = Session.running s ∧
          Session.task s' = Session.task s)) ∧
  (∀ msg, TC.from_string (default "00:00:00:00" (d !! "timecode"))
            = Raise (ValueError msg) →
     reset_timecode c d σ
       = send_to_client c (error ("Invalid timecode format: " +:+ msg)) σ).
Proof.
  intros Hcur Hsid Hid _. split.
  - intros tc Hparse.
    set (s1 := Session.with_timecode tc s).
    set (σ1 := set_sessions (<[sid := s1]>) σ).
    assert (sessions σ1 !! sid = Some s1) as Hk1 by (simpl; apply lookup_insert_eq).
    destruct (broadcast_state_effect sid s1 (timecode_reset (TC.to_string tc)) σ1 Hk1)
      as (Hw & Hn & Ht & Hsame & _).
    exists (broadcast_state sid (timecode_reset (TC.to_string tc)) σ1).
    split_and!; [|by rewrite Hw, (deliverable_ext σ1 σ)|done..|].
    + rewrite (reset_timecode_run c d σ sid s tc Hcur Hsid Hparse). by rewrite Hid.
    + intros s' Hs'. destruct (Hsame _ _ Hs') as (s0 & Hs0 & Hc).
      rewrite Hk1 in Hs0. injection Hs0 as <-.
      destruct Hc as (_ & _ & _ & Htc & Hr & Hta & _). by rewrite Htc, Hr, Hta.
  - intros msg Hparse. unfold reset_timecode. munfold.
    by rewrite Hcur, Hsid, Hparse.
Qed.

Lemma reset_timecode_replaces_witness :
  (∃ σ', reset_timecode "c1" {[ "timecode" := " 1:2:3:4" ]} solo_running = (Ok tt, σ') ∧
         wire σ' = (wire solo_running ++ [("c1", timecode_reset "01:02:03:04")])%list ∧
         ∀ s', sessions σ' !! "s1" = Some s' →
               Session.timecode s' = Timecode 1 2 3 4 ∧ Session.running s' = true) ∧
  reset_timecode "c1" {[ "timecode" := "1:2:3:4x" ]} solo_running
    = (Ok tt, push_wire "c1"
         (error "Invalid timecode format: invalid literal for int() with base 10: '4x'")
         solo_running).
Proof.
  assert (∃ s, sessions solo_running !! "s1" = Some s ∧ Session.running s = true ∧
               Session.clients s = {["c1"]} ∧ Session.id s = "s1")
    as (s & Hs & Hrun & Hcl & Hid)
    by (eexists; split_and!; by vm_compute).
  split.
  - destruct (reset_timecode_replaces solo_running "c1" "s1" s {[ "timecode" := " 1:2:3:4" ]}
                ltac:(by vm_compute) Hs Hid
                (short_ascii_check " 1:2:3:4" ltac:(by vm_compute))) as [Hok _].
    destruct (Hok (Timecode 1 2 3 4) ltac:(by vm_compute))
      as (σ' & Hreset & Hw & _ & _ & Hs').
    exists σ'. split_and!; [done| |].
    + rewrite Hw, Hcl. by vm_compute.
    + intros s' Hlook. destruct (Hs' s' Hlook) as (? & ? & _). split; congruence.
  - destruct (reset_timecode_replaces solo_running "c1" "s1" s {[ "timecode" := "1:2:3:4x" ]}
                ltac:(by vm_compute) Hs Hid
                (short_ascii_check "1:2:3:4x" ltac:(by vm_compute))) as [_ Herr].
    rewrite (Herr "invalid literal for int() with base 10: '4x'" ltac:(by vm_compute)).
    by vm_compute.
Defined.

(** ** Which requests raise *)

Lemma leave_state_lookup c σ k :
  sessions (leave_state c σ) !! k =
  match sessions σ !! k with
  | Some s =>
      if bool_decide (current_session σ c = Some k) then
        if Session.is_empty (Session.remove_client c s) then None
        else Some (Session.remove_client c s)
      else Some s
  | None => None
  end.
Proof.
  unfold leave_state. destruct (current_session σ c) as [sid|] eqn:Hcur.
  - destruct (decide (sid = k)) as [->|Hne].
    + rewrite bool_decide_eq_true_2 by done.
      destruct (sessions σ !! k) as [s|] eqn:Hk; [|by simpl; rewrite Hk].
      destruct (Session.is_empty _); simpl.
      * apply lookup_delete_eq.
      * apply lookup_insert_eq.
    + rewrite bool_decide_eq_false_2 by congruence.
      destruct (sessions σ !! sid) as [s|] eqn:Hsid; simpl.
      * destruct (Session.is_empty _); simpl.
        -- rewrite lookup_delete_ne by done. by destruct (sessions σ !! k).
        -- rewrite lookup_insert_ne by done. by destruct (sessions σ !! k).
      * by destruct (sessions σ !! k).
  - rewrite bool_decide_eq_false_2 by done. by destruct (sessions σ !! k).
Qed.

Lemma registered_Some σ o sid :
  registered σ o = Some sid ↔ o = Some sid ∧ is_Some (sessions σ !! sid).
Proof.
  unfold registered. destruct o as [k|]; [|by split; [|intros []]].
  destruct (decide (is_Some (sessions σ !! k))) as [H|H].
  - rewrite bool_decide_eq_true_2 by done. split; [by intros [= <-]|by intros [[= <-] _]].
  - rewrite bool_decide_eq_false_2 by done. split; [done|]. by intros [[= <-] ?].
Qed.

(** X11. [join_session] either returns normally or raises [KeyError] for
    the target id, and it raises exactly when the target is registered, the
    requester is currently in it, and nobody else subscribes to it; in that
    case the target has been deleted by the implicit leave and the requester
    is left in no session. *)
Theorem join_session_raises_iff σ c d :
  ((∃ σ', join_session c d σ = (Ok tt, σ')) ∨
   (∃ sid, d !! "session_id" = Some sid ∧
           join_session c d σ = (Raise (KeyError sid), leave_state c σ) ∧
           sessions (leave_state c σ) !! sid = None ∧
           current_session (leave_state c σ) c = None)) ∧
  ((∃ e σ', join_session c d σ = (Raise e, σ')) ↔
   ∃ sid s, d !! "session_id" = Some sid ∧ sessions σ !! sid = Some s ∧
            current_session σ c = Some sid ∧ Session.clients s ⊆ {[c]}).
Proof.
  assert (∀ s, Session.is_empty (Session.remove_client c s) = true ↔
               Session.clients s ⊆ {[c]}) as Hemp.
  { intros s. split.
    - intros H%is_empty_true x Hx. simpl in H.
      destruct (decide (x = c)) as [->|Hne]; [by apply elem_of_singleton|].
      exfalso. apply (not_elem_of_empty (C:=gset string) x). rewrite <- H.
      apply elem_of_difference. split; [done|]. by rewrite elem_of_singleton.
    - intros H. unfold Session.is_empty. simpl.
      apply Nat.eqb_eq, size_empty_iff. intros x. split.
      + intros [Hx Hn]%elem_of_difference. by apply H in Hx.
      + by intros ?%not_elem_of_empty. }
  destruct (registered σ (d !! "session_id")) as [sid|] eqn:Hreg.
  - pose proof Hreg as [Hd [s Hs]]%registered_Some.
    pose proof (leave_state_lookup c σ sid) as Hlook. rewrite Hs in Hlook.
    destruct (sessions (leave_state c σ) !! sid) as [s1|] eqn:Hs1.
    + rewrite (join_session_joined c d σ sid s1 Hreg Hs1), send_to_client_run.
      split; [left; eauto|]. split; [by intros (? & ? & ?)|].
      intros (sid' & s' & Hd' & Hs' & Hcur & Hsub). exfalso.
      rewrite Hd in Hd'. injection Hd' as <-. rewrite Hs in Hs'. injection Hs' as <-.
      rewrite bool_decide_eq_true_2 in Hlook by done.
      apply Hemp in Hsub. by rewrite Hsub in Hlook.
    + rewrite (join_session_raises c d σ sid Hreg Hs1).
      destruct (decide (current_session σ c = Some sid)) as [Hcur|Hcur];
        [rewrite bool_decide_eq_true_2 in Hlook by done
        |by rewrite bool_decide_eq_false_2 in Hlook by done].
      destruct (Session.is_empty (Session.remove_client c s)) eqn:E; [|done].
      split.
      * right. exists sid. split_and!; [done..|].
        destruct (leave_state_in c σ sid s Hcur Hs) as (Hcl & _).
        unfold current_session. rewrite Hcl, lookup_alter_eq.
        by destruct (clients σ !! c).
      * split; [|eauto]. intros _. exists sid, s. split_and!; [done..|]. by apply Hemp.
  - rewrite (join_session_unknown c d σ Hreg), send_to_client_run.
    split; [left; eauto|]. split; [by intros (? & ? & ?)|].
    intros (sid & s & Hd & Hs & _). exfalso.
    assert (registered σ (d !! "session_id") = Some sid) as Hr
      by (apply registered_Some; eauto).
    congruence.
Qed.

Lemma join_session_raises_iff_witness :
  join_session "c1" (join_request "s1") solo_session
    = (Raise (KeyError "s1"), leave_state "c1" solo_session).
Proof.
  destruct (proj1 (join_session_raises_iff solo_session "c1" (join_request "s1")))
    as [(σ' & Hok)|(sid & Hd & Hraise & _)].
  - exfalso.
    assert (∃ e σ'', join_session "c1" (join_request "s1") solo_session = (Raise e, σ''))
      as (e & σ'' & He); [|congruence].
    apply (proj2 (join_session_raises_iff solo_session "c1" (join_request "s1"))).
    eexists "s1", _. split_and!; [by vm_compute..|].
    apply (bool_decide_unpack _). by vm_compute.
  - assert (sid = "s1") as -> by (vm_compute in Hd; congruence). done.
Defined.

(** ** Leaving the current session *)

(** [TimecodeSession.stop_timecode] on a running session is its two halves
    one after the other. *)
Lemma stop_timecode_in_two_halves k s h σ :
  sessions σ !! k = Some s → Session.running s = true → Session.task s = Some h →
  exec (call_session k Session.stop_timecode) σ = stop_resumes k (stop_begins k σ).
Proof.
  intros Hk Hrun Htask. unfold exec, stop_begins, stop_resumes.
  rewrite (call_session_run _ _ _ _ Hk), Hk, Htask, Hrun.
  rewrite (session_stop_live s (loop σ) h Hrun Htask).
  apply server_eq; simpl; try done.
  apply map_eq. intros k'. destruct (decide (k = k')) as [<-|Hne].
  - by rewrite lookup_alter_eq, !lookup_insert_eq.
  - by rewrite lookup_alter_ne, !lookup_insert_ne.
Qed.

(** X12. [leave_session] by a client whose current session [sid] is
    registered returns normally, writes nothing and leaves the client in no
    session.  If other subscribers remain, the session stays registered
    without the client and nothing else changes.  If the client was the last
    subscriber, the session is deleted, its clock task, if it had one
    running, is cancelled, no task is created, and a [join_session] for
    [sid] by anybody only reports 'Session not found'. *)
Theorem leave_session_current σ c sid s d :
  current_session σ c = Some sid →
  sessions σ !! sid = Some s →
  ∃ σ',
    leave_session c d σ = (Ok tt, σ') ∧
    current_session σ' c = None ∧
    wire σ' = wire σ ∧
    (Session.clients s ∖ {[c]} ≠ ∅ →
       sessions σ' = <[sid := Session.remove_client c s]> (sessions σ) ∧
       loop σ' = loop σ) ∧
    (Session.clients s ∖ {[c]} = ∅ →
       sessions σ' = delete sid (sessions σ) ∧
       (∀ h, Session.running s = true → Session.task s = Some h →
          tasks (loop σ') = delete h (tasks (loop σ))) ∧
       next_task (loop σ') = next_task (loop σ) ∧
       tasks (loop σ') ⊆ tasks (loop σ) ∧
       (∀ c' d', d' !! "session_id" = Some sid →
          join_session c' d' σ' = send_to_client c' (error "Session not found") σ')).
Proof.
  intros Hcur Hsid.
  destruct (leave_state_in c σ sid s Hcur Hsid) as (Hcl & Hw & Hkeep & Hdrop).
  exists (leave_state c σ). split_and!.
  - apply leave_session_run.
  - unfold current_session. rewrite Hcl, lookup_alter_eq.
    by destruct (clients σ !! c).
  - done.
  - done.
  - intros Hemp. destruct (Hdrop Hemp) as [Hs' Hl'].
    destruct (stop_timecode_loop (Session.remove_client c s) (loop σ)) as [Hn Ht].
    split_and!; [done| |by rewrite Hl'..|].
    + intros h Hrun Htask. rewrite Hl', stop_timecode_tasks. simpl.
      by rewrite Htask, Hrun.
    + intros c' d' Hd'. unfold join_session. munfold.
      unfold registered. rewrite Hd', Hs', lookup_delete_eq.
      rewrite bool_decide_eq_false_2; [done|]. by intros [? ?].
Qed.

Lemma leave_session_current_witness :
  ∃ σ', leave_session "c1" ∅ solo_running = (Ok tt, σ') ∧
        sessions σ' = ∅ ∧
        tasks (loop solo_running) !! 0%nat = Some "s1" ∧
        tasks (loop σ') = ∅ ∧
        join_session "c2" (join_request "s1") σ'
          = send_to_client "c2" (error "Session not found") σ'.
Proof.
  assert (∃ s, sessions solo_running !! "s1" = Some s ∧
               Session.clients s ∖ {["c1"]} = ∅ ∧
               Session.running s = true ∧ Session.task s = Some 0%nat)
    as (s & Hs & Hemp & Hrun & Htask).
  { eexists. split_and!; by vm_compute. }
  destruct (leave_session_current solo_running "c1" "s1" s ∅ ltac:(by vm_compute) Hs)
    as (σ' & Hleave & _ & _ & _ & Hdrop).
  destruct (Hdrop Hemp) as (Hss & Htasks & _ & _ & Hjoin).
  exists σ'. split_and!; [done| |by vm_compute| |].
  - rewrite Hss. by vm_compute.
  - rewrite (Htasks 0%nat Hrun Htask). by vm_compute.
  - apply Hjoin. by vm_compute.
Defined.

(** ** Requests never end a connection *)









(** ** A connection that is gone *)

Lemma current_session_gone σ c : clients σ !! c = None → current_session σ c = None.
Proof. intros H. unfold current_session. by rewrite H. Qed.

Lemma leave_state_gone σ c : clients σ !! c = None → leave_state c σ = σ.
Proof. intros H. unfold leave_state. by rewrite current_session_gone. Qed.

Lemma disconnect_state_gone σ c : clients σ !! c = None → disconnect_state c σ = σ.
Proof.
  intros H. unfold disconnect_state. rewrite leave_state_gone by done.
  apply server_eq; simpl; try done. by apply delete_id.
Qed.

Lemma send_state_gone σ c msg : clients σ !! c = None → send_state c msg σ = σ.
Proof. intros H. unfold send_state, channel_open. by rewrite H. Qed.

(** X14. [handle_client_disconnect] returns normally and writes nothing.
    It removes the record of the client and no other record, and takes the
    client out of the session it was in.  Afterwards the client is unknown
    to the server: a second disconnect changes nothing, a message sent to it
    is dropped, and a [leave_session], [start_timecode], [stop_timecode] or
    [reset_timecode] request still read from its connection changes nothing
    and gets no answer. *)
Theorem disconnect_forgets_client σ c :
  ∃ σ',
    handle_client_disconnect c σ = (Ok tt, σ') ∧
    clients σ' = delete c (clients σ) ∧
    wire σ' = wire σ ∧
    (∀ sid s', current_session σ c = Some sid → sessions σ' !! sid = Some s' →
       c ∉ Session.clients s') ∧
    handle_client_disconnect c σ' = (Ok tt, σ') ∧
    (∀ msg, send_to_client c msg σ' = (Ok tt, σ')) ∧
    (∀ u d ty, d !! "type" = Some ty →
       ty ∈ ["leave_session"; "start_timecode"; "stop_timecode"; "reset_timecode"] →
       handle_line u c (Some d) σ' = (Ok tt, σ')).
Proof.
  exists (disconnect_state c σ).
  assert (clients (disconnect_state c σ) !! c = None) as Hgone
    by (rewrite disconnect_state_clients; apply lookup_delete_eq).
  split_and!.
  - apply handle_client_disconnect_run.
  - apply disconnect_state_clients.
  - apply disconnect_state_wire.
  - intros sid s' Hcur Hs'. unfold disconnect_state in Hs'. simpl in Hs'.
    rewrite leave_state_lookup in Hs'.
    destruct (sessions σ !! sid) as [s|]; [|done].
    rewrite bool_decide_eq_true_2 in Hs' by done.
    destruct (Session.is_empty _); [done|]. injection Hs' as <-. simpl.
    intros [_ Hn]%elem_of_difference. apply Hn. by apply elem_of_singleton.
  - by rewrite handle_client_disconnect_run, disconnect_state_gone.
  - intros msg. by rewrite send_to_client_run, send_state_gone.
  - intros u d ty Hty Hin. set (σ' := disconnect_state c σ) in *.
    assert (handle_client_message u c d σ' = (Ok tt, σ')) as Hm.
    { unfold handle_client_message. rewrite Hty.
      repeat (apply elem_of_cons in Hin as [->|Hin]); [..|by apply elem_of_nil in Hin];
        cbn [String.eqb Ascii.eqb Bool.eqb andb].
      - by rewrite leave_session_run, leave_state_gone.
      - unfold start_timecode. munfold. rewrite current_session_gone by done.
        by rewrite send_to_client_run, send_state_gone.
      - unfold stop_timecode. munfold. rewrite current_session_gone by done.
        by rewrite send_to_client_run, send_state_gone.
      - unfold reset_timecode. munfold. rewrite current_session_gone by done.
        by rewrite send_to_client_run, send_state_gone. }
    unfold handle_line. munfold. by rewrite Hm.
Qed.
